(** * usgs_exporter: a shallow embedding of [src/usgs_exporter.py]

    The exporter polls the USGS water-data API for a list of gauges and
    publishes the readings, together with its own health counters, in a
    Prometheus registry.  This file embeds the three functions of the module,
    [load_gauges], [fetch_usgs_gauge] and [metrics], and states the properties
    of the specification over them.

    Conventions of the embedding.
    - A Python [float] is a primitive binary64 float; [float("nan")] is [nan]
      and [!=] is the negation of the IEEE comparison [PrimFloat.eqb].
    - A Python [int] is a [Z].
    - Python exceptions are values of [exn]; code that can raise returns
      [res A]; code that also touches the registry or prints lives in the
      monad [M] (state passing, side effects survive a raise).
    - The process-wide Prometheus registry and the standard output are the
      [state]; a labelled metric is a finite map from label values to samples.
    - Parsed documents (JSON bodies, the YAML gauge file) are trees; a dict is
      an association list read by its first matching key. *)

From Stdlib Require Import ZArith List String Ascii Bool Lia Floats Permutation.
From stdpp Require Import gmap strings list fin_maps.

Set Warnings "-register-all".

Local Open Scope string_scope.
Local Open Scope Z_scope.
Local Open Scope list_scope.
Local Open Scope stdpp_scope.

(** ** Exceptions and results *)

(** What [session.get] itself can raise: the transport's own failures.  An
    [HTTPError] is only ever raised by [raise_for_status] (line 107). *)
Inductive transport_error : Type :=
| ConnectionError
| ConnectTimeout
| ReadTimeout
| RetryError.

Inductive exn : Type :=
| ValueError
| TypeError
| KeyError
| AttributeError
| IndexError
| OverflowError
| JSONDecodeError
| OSError
| YAMLError
| HTTPError (status_code : Z)
| RequestException (e : transport_error).

Inductive res (A : Type) : Type :=
| Ok (a : A)
| Raise (e : exn).
Arguments Ok {A} a.
Arguments Raise {A} e.

Definition res_bind {A B : Type} (r : res A) (k : A -> res B) : res B :=
  match r with
  | Ok a => k a
  | Raise e => Raise e
  end.

(** ** Documents: JSON bodies and the YAML gauge file *)

Inductive json : Type :=
| JNull
| JBool (b : bool)
| JInt (z : Z)
| JFloat (f : float)
| JStr (s : string)
| JList (l : list json)
| JDict (d : list (string * json)).

(** The gauge file is read with [yaml.safe_load]; the exporter only ever looks
    up the string keys ["id"], ["name"] and ["friendly_name"], so a mapping is
    kept by its string keys. *)
Inductive yaml : Type :=
| YNull
| YBool (b : bool)
| YInt (z : Z)
| YFloat (f : float)
| YStr (s : string)
| YList (l : list yaml)
| YDict (d : list (string * yaml)).

(** [d.get(k)] / [k in d] / [d[k]] on an association list. *)
Fixpoint dict_get {V : Type} (k : string) (d : list (string * V)) : option V :=
  match d with
  | [] => None
  | (k', v) :: d' => if String.eqb k k' then Some v else dict_get k d'
  end.

Definition dict_contains {V : Type} (k : string) (d : list (string * V)) : bool :=
  match dict_get k d with Some _ => true | None => false end.

Definition dict_index {V : Type} (k : string) (d : list (string * V)) : res V :=
  match dict_get k d with Some v => Ok v | None => Raise KeyError end.

(** ** Python numbers *)

(** [float(n)] for an [int]: the nearest double, ties to even;
    [OverflowError] when the rounded value is beyond the largest double. *)
Definition float_of_Z (z : Z) : float :=
  SF2Prim (binary_normalize prec emax z 0 false).

Definition float_overflows (z : Z) : bool :=
  2 ^ 1024 - 2 ^ 970 <=? Z.abs z.

Definition py_float_of_int (z : Z) : res float :=
  if float_overflows z then Raise OverflowError else Ok (float_of_Z z).

(** [str.isspace] on the Latin-1 range, the characters [int] strips. *)
Definition is_space (c : ascii) : bool :=
  let n := Z.of_nat (nat_of_ascii c) in
  ((9 <=? n) && (n <=? 13)) || ((28 <=? n) && (n <=? 32))
  || (n =? 133) || (n =? 160).

Fixpoint lstrip (s : list ascii) : list ascii :=
  match s with
  | c :: s' => if is_space c then lstrip s' else s
  | [] => []
  end.

Definition strip (s : list ascii) : list ascii :=
  rev (lstrip (rev (lstrip s))).

Definition digit_of (c : ascii) : option Z :=
  let n := Z.of_nat (nat_of_ascii c) in
  if (48 <=? n) && (n <=? 57) then Some (n - 48) else None.

(** The digits of a decimal literal: at least one digit, and a single
    underscore allowed between two digits.  [after_digit] tells whether the
    previous character was a digit. *)
Fixpoint parse_digits (s : list ascii) (acc : Z) (after_digit : bool) : option Z :=
  match s with
  | [] => if after_digit then Some acc else None
  | c :: s' =>
      match digit_of c with
      | Some d => parse_digits s' (10 * acc + d) true
      | None =>
          if Ascii.eqb c "_"%char && after_digit then
            match s' with
            | c' :: _ =>
                match digit_of c' with
                | Some _ => parse_digits s' acc false
                | None => None
                end
            | [] => None
            end
          else None
      end
  end.

(** [int(s)] for a string, base 10: surrounding white space, an optional
    sign, digits.  [ValueError] otherwise. *)
Definition py_int_of_str (s : string) : res Z :=
  let body := strip (list_ascii_of_string s) in
  let signed :=
    match body with
    | c :: rest =>
        if Ascii.eqb c "-"%char then (true, rest)
        else if Ascii.eqb c "+"%char then (false, rest)
        else (false, body)
    | [] => (false, [])
    end in
  match parse_digits (snd signed) 0 false with
  | Some n => Ok (if fst signed then - n else n)
  | None => Raise ValueError
  end.

(** [int(x)] where [x] is the result of [headers.get(...)]: [int(None)] is a
    [TypeError]. *)
Definition py_int (x : option string) : res Z :=
  match x with
  | None => Raise TypeError
  | Some s => py_int_of_str s
  end.

(** ** The registry, the standard output, and the monad of effects *)

(** The lines the module prints.  The text of an exception is not modelled;
    a line keeps what it was printed about. *)
Inductive log_line : Type :=
| ErrorLoadingGauges (e : exn)
| WarnHTTPError (gauge_id key_label : string) (e : exn)
| WarnFetchError (gauge_id key_label : string) (e : exn)
| WarnProcessing (gauge_id : string) (e : exn).

(** The module-level metrics (lines 15 to 57) and the standard output.  A
    metric declared with label names is a map from label values to samples.
    [set] stores [float(value)]: a rate-limit sample is the double of the
    integer handed to [set] (see [check_sample] for the integers that have
    none).  The two counters and the gauge count are at most the length of
    the gauge list, where an integer and its double are the same number;
    they are kept as integers. *)
Record state : Type := mkState {
  USGS_STREAMFLOW : gmap (string * string * string) float;
  SCRAPE_SUCCESS : Z;
  SCRAPE_FAILURE : Z;
  GAUGES_TOTAL : Z;
  SCRAPE_DURATION : float;
  USGS_API_RATELIMIT_REMAINING : gmap string float;
  USGS_API_RATELIMIT_LIMIT : gmap string float;
  USGS_API_REQUESTS_PER_HOUR : gmap string float;
  stdout : list log_line
}.

(** The registry of a freshly started process. *)
Definition initial_state : state :=
  mkState ∅ 0 0 0 zero ∅ ∅ ∅ [].

Definition with_streamflow (f : gmap (string * string * string) float ->
                                gmap (string * string * string) float)
  (st : state) : state :=
  mkState (f (USGS_STREAMFLOW st)) (SCRAPE_SUCCESS st) (SCRAPE_FAILURE st)
    (GAUGES_TOTAL st) (SCRAPE_DURATION st) (USGS_API_RATELIMIT_REMAINING st)
    (USGS_API_RATELIMIT_LIMIT st) (USGS_API_REQUESTS_PER_HOUR st) (stdout st).

Definition with_success (n : Z) (st : state) : state :=
  mkState (USGS_STREAMFLOW st) n (SCRAPE_FAILURE st)
    (GAUGES_TOTAL st) (SCRAPE_DURATION st) (USGS_API_RATELIMIT_REMAINING st)
    (USGS_API_RATELIMIT_LIMIT st) (USGS_API_REQUESTS_PER_HOUR st) (stdout st).

Definition with_failure (n : Z) (st : state) : state :=
  mkState (USGS_STREAMFLOW st) (SCRAPE_SUCCESS st) n
    (GAUGES_TOTAL st) (SCRAPE_DURATION st) (USGS_API_RATELIMIT_REMAINING st)
    (USGS_API_RATELIMIT_LIMIT st) (USGS_API_REQUESTS_PER_HOUR st) (stdout st).

Definition with_gauges_total (n : Z) (st : state) : state :=
  mkState (USGS_STREAMFLOW st) (SCRAPE_SUCCESS st) (SCRAPE_FAILURE st)
    n (SCRAPE_DURATION st) (USGS_API_RATELIMIT_REMAINING st)
    (USGS_API_RATELIMIT_LIMIT st) (USGS_API_REQUESTS_PER_HOUR st) (stdout st).

Definition with_duration (d : float) (st : state) : state :=
  mkState (USGS_STREAMFLOW st) (SCRAPE_SUCCESS st) (SCRAPE_FAILURE st)
    (GAUGES_TOTAL st) d (USGS_API_RATELIMIT_REMAINING st)
    (USGS_API_RATELIMIT_LIMIT st) (USGS_API_REQUESTS_PER_HOUR st) (stdout st).

Definition with_remaining (f : gmap string float -> gmap string float) (st : state) : state :=
  mkState (USGS_STREAMFLOW st) (SCRAPE_SUCCESS st) (SCRAPE_FAILURE st)
    (GAUGES_TOTAL st) (SCRAPE_DURATION st) (f (USGS_API_RATELIMIT_REMAINING st))
    (USGS_API_RATELIMIT_LIMIT st) (USGS_API_REQUESTS_PER_HOUR st) (stdout st).

Definition with_limit (f : gmap string float -> gmap string float) (st : state) : state :=
  mkState (USGS_STREAMFLOW st) (SCRAPE_SUCCESS st) (SCRAPE_FAILURE st)
    (GAUGES_TOTAL st) (SCRAPE_DURATION st) (USGS_API_RATELIMIT_REMAINING st)
    (f (USGS_API_RATELIMIT_LIMIT st)) (USGS_API_REQUESTS_PER_HOUR st) (stdout st).

Definition with_used (f : gmap string float -> gmap string float) (st : state) : state :=
  mkState (USGS_STREAMFLOW st) (SCRAPE_SUCCESS st) (SCRAPE_FAILURE st)
    (GAUGES_TOTAL st) (SCRAPE_DURATION st) (USGS_API_RATELIMIT_REMAINING st)
    (USGS_API_RATELIMIT_LIMIT st) (f (USGS_API_REQUESTS_PER_HOUR st)) (stdout st).

Definition with_stdout (f : list log_line -> list log_line) (st : state) : state :=
  mkState (USGS_STREAMFLOW st) (SCRAPE_SUCCESS st) (SCRAPE_FAILURE st)
    (GAUGES_TOTAL st) (SCRAPE_DURATION st) (USGS_API_RATELIMIT_REMAINING st)
    (USGS_API_RATELIMIT_LIMIT st) (USGS_API_REQUESTS_PER_HOUR st) (f (stdout st)).

(** A computation reads and writes the state and ends with a value or a
    raised exception; what it did before raising stays done. *)
Definition M (A : Type) : Type := state -> res A * state.

Definition ret {A : Type} (a : A) : M A := fun st => (Ok a, st).

Definition raise {A : Type} (e : exn) : M A := fun st => (Raise e, st).

Definition lift {A : Type} (r : res A) : M A := fun st => (r, st).

Definition bind {A B : Type} (m : M A) (k : A -> M B) : M B :=
  fun st =>
    match m st with
    | (Ok a, st') => k a st'
    | (Raise e, st') => (Raise e, st')
    end.

(** [try: m except Exception as e: h e]. *)
Definition try_except {A : Type} (m : M A) (h : exn -> M A) : M A :=
  fun st =>
    match m st with
    | (Ok a, st') => (Ok a, st')
    | (Raise e, st') => h e st'
    end.

Definition modify (f : state -> state) : M unit := fun st => (Ok tt, f st).

Definition print (l : log_line) : M unit :=
  modify (with_stdout (fun out => out ++ [l])).

Declare Scope py_scope.
Delimit Scope py_scope with py.
Notation "x <- m ;; k" := (bind m (fun x => k))
  (at level 100, m at next level, right associativity) : py_scope.
Notation "m ;; k" := (bind m (fun _ => k))
  (at level 100, right associativity) : py_scope.
Notation "'let?' x := r 'in' k" := (res_bind r (fun x => k))
  (at level 10, x name, r at level 100, k at level 200) : py_scope.
Local Open Scope py_scope.

(** [metric.labels(label)]: the child for these label values, created with
    the sample 0 when it does not exist yet. *)
Definition labels (label : string) (m : gmap string float) : gmap string float :=
  match m !! label with
  | Some _ => m
  | None => <[label := zero]> m
  end.

(** ** HTTP *)

Record request : Type := mkRequest {
  url : string;
  req_headers : list (string * string);
  params : list (string * string);
  timeout : Z
}.

Record response : Type := mkResponse {
  status_code : Z;
  headers : list (string * string);
  body : option json   (* [None]: the body is not JSON, [r.json()] raises *)
}.

(** What one call of [session.get] ends with, after the adapter's own
    retries (lines 67 to 75). *)
Inductive get_outcome : Type :=
| GetRaises (e : transport_error)
| GetReturns (r : response).

(** The upstream as seen by one call of [fetch_usgs_gauge]: an oracle that
    answers a request.  It is told for which credential the call is made, so
    that two calls with equal requests may still end differently; an upstream
    that answers by the request alone ignores that argument. *)
Definition transport : Type := string -> request -> get_outcome.

Definition lower (c : ascii) : ascii :=
  let n := nat_of_ascii c in
  if ((65 <=? n) && (n <=? 90))%nat then ascii_of_nat (n + 32) else c.

Fixpoint lower_str (s : string) : string :=
  match s with
  | EmptyString => EmptyString
  | String c s' => String (lower c) (lower_str s')
  end.

(** [r.headers.get(name)]: the header names are compared without case. *)
Fixpoint headers_get (name : string) (h : list (string * string)) : option string :=
  match h with
  | [] => None
  | (k, v) :: h' =>
      if String.eqb (lower_str k) (lower_str name) then Some v
      else headers_get name h'
  end.

(** [r.raise_for_status()]. *)
Definition raise_for_status (r : response) : res unit :=
  if (400 <=? status_code r) && (status_code r <? 600)
  then Raise (HTTPError (status_code r))
  else Ok tt.

Definition API_URL : string :=
  "https://api.waterdata.usgs.gov/ogcapi/v0/collections/latest-continuous/items".

(** ** JSON access as Python performs it *)

(** [bool(v)]. *)
Definition py_truthy (v : json) : bool :=
  match v with
  | JNull => false
  | JBool b => b
  | JInt z => negb (z =? 0)
  | JFloat f => negb (PrimFloat.eqb f zero)
  | JStr s => negb (String.eqb s "")
  | JList l => match l with [] => false | _ => true end
  | JDict d => match d with [] => false | _ => true end
  end.

(** [v.get(k, default)]: only a dict has [get]. *)
Definition json_get (k : string) (default : json) (v : json) : res json :=
  match v with
  | JDict d => Ok (match dict_get k d with Some x => x | None => default end)
  | _ => Raise AttributeError
  end.

(** [v[0]]. *)
Definition json_first (v : json) : res json :=
  match v with
  | JList (x :: _) => Ok x
  | JList [] => Raise IndexError
  | JStr (String c _) => Ok (JStr (String c EmptyString))
  | JStr EmptyString => Raise IndexError
  | JDict _ => Raise KeyError
  | _ => Raise TypeError
  end.

(** [v[k]] for a string key. *)
Definition json_item (k : string) (v : json) : res json :=
  match v with
  | JDict d => dict_index k d
  | _ => Raise TypeError
  end.

Section Exporter.

(** ** What the module takes from its surroundings *)

(** [str(x)] for a value of the gauge file that is not a string (how Python
    prints numbers, booleans, [None], lists and dicts). *)
Variable py_repr : yaml -> string.

(** [float(s)] for a string: Python's parser of float literals; [None]
    stands for its [ValueError]. *)
Variable py_float_of_str : string -> option float.

(** The configuration read from the environment at import (lines 61 to 63). *)
Variable MAX_WORKERS : Z.
Variable API_KEY_PRIMARY : option string.
Variable API_KEY_BACKUP : option string.

(** [str(x)], also what an f-string makes of [x]. *)
Definition py_str (x : yaml) : string :=
  match x with
  | YStr s => s
  | _ => py_repr x
  end.

(** [float(v)] for a value of a JSON body. *)
Definition py_float (v : json) : res float :=
  match v with
  | JNull => Raise TypeError
  | JBool b => Ok (if b then one else zero)
  | JInt z => py_float_of_int z
  | JFloat f => Ok f
  | JStr s =>
      match py_float_of_str s with
      | Some f => Ok f
      | None => Raise ValueError
      end
  | JList _ => Raise TypeError
  | JDict _ => Raise TypeError
  end.

(** ** [load_gauges] (lines 78 to 90) *)

(** A gauge descriptor: one mapping of the gauge file. *)
Definition gauge : Type := list (string * yaml).

(** Lines 84 to 86, for one entry. *)
Definition check_entry (g : yaml) : res gauge :=
  match g with
  | YDict d => if dict_contains "id" d then Ok d else Raise ValueError
  | _ => Raise ValueError
  end.

Fixpoint check_entries (gs : list yaml) : res (list gauge) :=
  match gs with
  | [] => Ok []
  | g :: gs' =>
      let? d := check_entry g in
      let? ds := check_entries gs' in
      Ok (d :: ds)
  end.

(** The body of the [try] (lines 80 to 87).  [file] is what opening and
    parsing [GAUGES_FILE] gives: the document, or the exception [open] or
    [yaml.safe_load] raised. *)
Definition read_gauges (file : res yaml) : res (list gauge) :=
  let? gauges := file in
  match gauges with
  | YList gs => check_entries gs
  | _ => Raise ValueError
  end.

Definition load_gauges (file : res yaml) : M (list gauge) :=
  try_except (lift (read_gauges file))
    (fun e => print (ErrorLoadingGauges e) ;; ret []).

(** ** [fetch_usgs_gauge] (lines 93 to 143) *)

(** Lines 128 to 135: the reading in a response body. *)
Definition parse_reading (body : option json) : res float :=
  let? data := match body with Some d => Ok d | None => Raise JSONDecodeError end in
  let? features := json_get "features" (JList []) data in
  if py_truthy features then
    let? first := json_first features in
    let? properties := json_item "properties" first in
    let? raw_val := json_get "value" JNull properties in
    match raw_val with
    | JDict _ =>
        let? inner := json_get "value" (JFloat nan) raw_val in
        py_float inner
    | _ => py_float raw_val
    end
  else Ok nan.

(** [except ValueError]: [ValueError] and its subclasses. *)
Definition is_ValueError (e : exn) : bool :=
  match e with
  | ValueError | JSONDecodeError => true
  | _ => false
  end.

Definition pass_ValueError (e : exn) : M unit :=
  if is_ValueError e then ret tt else raise e.

(** [set] stores [float(n)], and raises when the integer has no double. *)
Definition check_sample (n : Z) : res unit :=
  if float_overflows n then Raise OverflowError else Ok tt.

(** Lines 109 to 126.  In [metric.labels(l).set(int(s))] the child is created
    by [labels] before [int(s)] is evaluated. *)
Definition update_rate_limits (key_label : string) (r : response) : M unit :=
  let remaining := headers_get "X-RateLimit-Remaining" (headers r) in
  match remaining with
  | Some s =>
      try_except
        (modify (with_remaining (labels key_label)) ;;
         n <- lift (py_int_of_str s) ;;
         lift (check_sample n) ;;
         modify (with_remaining <[key_label := float_of_Z n]>))
        pass_ValueError
  | None => ret tt
  end ;;
  let limit := headers_get "X-RateLimit-Limit" (headers r) in
  match limit with
  | Some s =>
      try_except
        (modify (with_limit (labels key_label)) ;;
         n <- lift (py_int_of_str s) ;;
         lift (check_sample n) ;;
         modify (with_limit <[key_label := float_of_Z n]>))
        pass_ValueError
  | None => ret tt
  end ;;
  l <- lift (py_int limit) ;;
  rm <- lift (py_int remaining) ;;
  let used := l - rm in
  modify (with_used (labels key_label)) ;;
  lift (check_sample used) ;;
  modify (with_used <[key_label := float_of_Z used]>).

(** Lines 95 to 100 and 104: the request for one credential. *)
Definition build_request (gauge_id : yaml) (api_key : option string) : request :=
  mkRequest API_URL
    match api_key with
    | Some k => if String.eqb k "" then [] else [("X-Api-Key", k)]
    | None => []
    end
    [("monitoring_location_id", "USGS-" +:+ py_str gauge_id);
     ("parameter_code", "00060");
     ("statistic_id", "00011");
     ("properties", "value,time")]
    10.

(** Lines 106 to 135: the body of the [try] for one credential. *)
Definition attempt (session_get : transport) (gauge_id : yaml)
    (key_label : string) (api_key : option string) : M float :=
  r <- lift match session_get key_label (build_request gauge_id api_key) with
            | GetRaises e => Raise (RequestException e)
            | GetReturns r => Ok r
            end ;;
  lift (raise_for_status r) ;;
  update_rate_limits key_label r ;;
  lift (parse_reading (body r)).

(** Lines 136 to 142: the two handlers.  The [HTTPError] was raised by
    [raise_for_status] on the response [r] of this iteration, so the status
    it carries is [r.status_code]. *)
Definition on_error (gauge_id : yaml) (key_label : string) (e : exn) : M unit :=
  match e with
  | HTTPError code =>
      if code =? 429 then ret tt
      else print (WarnHTTPError (py_str gauge_id) key_label e)
  | _ => print (WarnFetchError (py_str gauge_id) key_label e)
  end.

(** The loop of line 103 over the credentials still to try. *)
Fixpoint fetch_with_keys (session_get : transport) (gauge_id : yaml)
    (keys : list (string * option string)) : M float :=
  match keys with
  | [] => ret nan
  | (key_label, api_key) :: rest =>
      got <- try_except
               (v <- attempt session_get gauge_id key_label api_key ;; ret (Some v))
               (fun e => on_error gauge_id key_label e ;; ret None) ;;
      match got with
      | Some v => ret v
      | None => fetch_with_keys session_get gauge_id rest
      end
  end.

Definition fetch_usgs_gauge (session_get : transport) (gauge_id : yaml) : M float :=
  fetch_with_keys session_get gauge_id
    [("primary", API_KEY_PRIMARY); ("backup", API_KEY_BACKUP)].

(** ** [metrics] (lines 146 to 185) *)

(** [ThreadPoolExecutor(max_workers=n)]: the constructor of
    [concurrent.futures] raises [ValueError] unless [n] is positive. *)
Definition ThreadPoolExecutor (max_workers : Z) : res Z :=
  if max_workers <=? 0 then Raise ValueError else Ok max_workers.

(** The dict comprehension of line 157 evaluates [g["id"]] and submits one
    task per gauge, in the order of the list: the arguments of the submitted
    tasks, and the [KeyError] that stopped the comprehension if there was one. *)
Fixpoint submit_all (gauges : list gauge) : list yaml * option exn :=
  match gauges with
  | [] => ([], None)
  | g :: gs =>
      match dict_index "id" g with
      | Ok gauge_id => let (ids, err) := submit_all gs in (gauge_id :: ids, err)
      | Raise e => ([], Some e)
      end
  end.

(** The workers.  Task [i] calls [fetch_usgs_gauge] on the [i]-th submitted
    id; what the call returns or raises is kept in future [i].  The tasks run
    one after the other in [run_order], the order in which the scheduler lets
    them through: a task is one step, the writes of two tasks are not
    interleaved.  Each task has its own view [session_get i] of the
    upstream. *)
Definition run_task (session_get : nat -> transport) (ids : list yaml)
    (futures : gmap nat (res float)) (i : nat) : M (gmap nat (res float)) :=
  match ids !! i with
  | Some gauge_id =>
      fun st =>
        let (outcome, st') := fetch_usgs_gauge (session_get i) gauge_id st in
        (Ok (<[i := outcome]> futures), st')
  | None => ret futures
  end.

Fixpoint run_tasks (session_get : nat -> transport) (ids : list yaml)
    (run_order : list nat) (futures : gmap nat (res float)) : M (gmap nat (res float)) :=
  match run_order with
  | [] => ret futures
  | i :: rest =>
      futures' <- run_task session_get ids futures i ;;
      run_tasks session_get ids rest futures'
  end.

(** The label values of the sample of one gauge (lines 160 to 162 and 175 to
    178); [labels] turns each value into a string with [str]. *)
Definition gauge_labels (g : gauge) : string * string * string :=
  let gauge_id := default YNull (dict_get "id" g) in
  let friendly := default (default gauge_id (dict_get "name" g))
                    (dict_get "friendly_name" g) in
  let location_name := default gauge_id (dict_get "name" g) in
  (py_str gauge_id, py_str friendly, py_str location_name).

(** Lines 159 to 179: the body of the loop for one completed future. *)
Definition collect_one (g : gauge) (outcome : res float) (counts : Z * Z) : M (Z * Z) :=
  let '(successes, failures) := counts in
  let gauge_id := default YNull (dict_get "id" g) in
  r <- try_except
         (val <- lift outcome ;;
          if negb (PrimFloat.eqb val nan)
          then ret (successes + 1, failures, val)
          else ret (successes, failures + 1, val))
         (fun e =>
            print (WarnProcessing (py_str gauge_id) e) ;;
            ret (successes, failures + 1, nan)) ;;
  let '(successes, failures, val) := r in
  modify (with_streamflow <[gauge_labels g := val]>) ;;
  ret (successes, failures).

(** The loop of line 158: [as_completed] hands the futures over in
    [done_order]. *)
Fixpoint collect (gauges : list gauge) (futures : gmap nat (res float))
    (done_order : list nat) (counts : Z * Z) : M (Z * Z) :=
  match done_order with
  | [] => ret counts
  | i :: rest =>
      match gauges !! i, futures !! i with
      | Some g, Some outcome =>
          counts' <- collect_one g outcome counts ;;
          collect gauges futures rest counts'
      | _, _ => collect gauges futures rest counts
      end
  end.

(** The handler of [/metrics].  [start_time] and [end_time] are the two
    readings of the clock; the value returned is the registry that
    [generate_latest] renders.

    The tasks run on worker threads while the handler collects.  A task
    writes only the rate-limit metrics and the standard output, the loop of
    line 158 only [USGS_STREAMFLOW] and the two local counters, so the
    registry is the same as when all the tasks run first, in [run_order], and
    are collected afterwards, in [done_order]. *)
Definition metrics (file : res yaml) (session_get : nat -> transport)
    (run_order done_order : list nat) (start_time end_time : float) : M state :=
  gauges <- load_gauges file ;;
  modify (with_gauges_total (Z.of_nat (length gauges))) ;;
  modify (with_streamflow (fun _ => ∅)) ;;
  let successes := 0 in
  let failures := 0 in
  lift (ThreadPoolExecutor (Z.min MAX_WORKERS (Z.of_nat (length gauges)))) ;;
  let (ids, err) := submit_all gauges in
  futures <- run_tasks session_get ids run_order ∅ ;;
  match err with Some e => raise e | None => ret tt end ;;
  counts <- collect gauges futures done_order (successes, failures) ;;
  modify (with_success (fst counts)) ;;
  modify (with_failure (snd counts)) ;;
  modify (with_duration (PrimFloat.sub end_time start_time)) ;;
  fun st => (Ok st, st).

(** ** The specification's vocabulary *)

(** An entry of the gauge file that [load_gauges] accepts: a mapping with an
    ["id"] key. *)
Definition well_formed_entry (g : yaml) : bool :=
  match g with
  | YDict d => dict_contains "id" d
  | _ => false
  end.

(** A document that is not a list, or a list with a malformed entry. *)
Definition malformed (doc : yaml) : Prop :=
  match doc with
  | YList gs => exists g, g ∈ gs /\ well_formed_entry g = false
  | _ => True
  end.

(** A JSON number and the double [float] makes of it. *)
Definition number_value (v : json) : option float :=
  match v with
  | JFloat f => Some f
  | JInt z => if float_overflows z then None else Some (float_of_Z z)
  | _ => None
  end.

(** The reading the specification assigns to a response body (section 4.1,
    step f): the first feature's [properties.value] when it is a number, its
    inner [value] when it is a nested structure (not-available when that
    field is missing), and not-available when there is no feature. *)
Inductive spec_reading : json -> float -> Prop :=
| reading_plain d first rest props v x :
    dict_get "features" d = Some (JList (JDict first :: rest)) ->
    dict_get "properties" first = Some (JDict props) ->
    dict_get "value" props = Some v ->
    number_value v = Some x ->
    spec_reading (JDict d) x
| reading_nested d first rest props inner v x :
    dict_get "features" d = Some (JList (JDict first :: rest)) ->
    dict_get "properties" first = Some (JDict props) ->
    dict_get "value" props = Some (JDict inner) ->
    dict_get "value" inner = Some v ->
    number_value v = Some x ->
    spec_reading (JDict d) x
| reading_nested_missing d first rest props inner :
    dict_get "features" d = Some (JList (JDict first :: rest)) ->
    dict_get "properties" first = Some (JDict props) ->
    dict_get "value" props = Some (JDict inner) ->
    dict_get "value" inner = None ->
    spec_reading (JDict d) nan
| reading_no_feature d :
    dict_get "features" d = Some (JList []) ->
    spec_reading (JDict d) nan.

(** The state after the handlers of lines 136 to 142 ran for exception [e]:
    a warning is printed unless [e] is the HTTP error 429. *)
Definition warned (gauge_id : yaml) (key_label : string) (e : exn) (st : state) : state :=
  match e with
  | HTTPError code =>
      if code =? 429 then st
      else with_stdout (fun out => out ++ [WarnHTTPError (py_str gauge_id) key_label e]) st
  | _ => with_stdout (fun out => out ++ [WarnFetchError (py_str gauge_id) key_label e]) st
  end.

(** A descriptor with an ["id"] key. *)
Definition has_id (g : gauge) : Prop := dict_contains "id" g = true.

(** [g.get("id")]. *)
Definition id_of (g : gauge) : yaml := default YNull (dict_get "id" g).

(** The registry after a response whose two headers were read: the doubles
    of the remaining quota, of the limit and of their difference. *)
Definition observed (key_label : string) (remaining limit : Z) (st : state) : state :=
  with_used <[key_label := float_of_Z (limit - remaining)]>
    (with_limit <[key_label := float_of_Z limit]>
       (with_remaining <[key_label := float_of_Z remaining]> st)).

(** A computation whose value (or exception) is the same from every state:
    it writes to the registry and prints, and never reads them back. *)
Definition oblivious {A : Type} (m : M A) : Prop :=
  forall st st', fst (m st) = fst (m st').

(** The metrics that belong to the scrape as a whole; [fetch_usgs_gauge]
    writes only the rate-limit metrics and the standard output. *)
Definition scrape_fields (st : state) :
    gmap (string * string * string) float * Z * Z * Z * float :=
  (USGS_STREAMFLOW st, SCRAPE_SUCCESS st, SCRAPE_FAILURE st, GAUGES_TOTAL st,
   SCRAPE_DURATION st).

(** A computation that leaves these metrics as they are. *)
Definition preserves {A : Type} (m : M A) : Prop :=
  forall st, scrape_fields (snd (m st)) = scrape_fields st.

(** What a call of [fetch_usgs_gauge] returns, as a function of the upstream's
    answers alone. *)
Definition reading (session_get : transport) (gauge_id : yaml) : res float :=
  fst (fetch_usgs_gauge session_get gauge_id initial_state).

(** The futures once the tasks of [run_order] have run. *)
Definition futures_after (session_get : nat -> transport) (ids : list yaml)
    (run_order : list nat) (futures : gmap nat (res float)) : gmap nat (res float) :=
  foldl (fun futs i =>
           match ids !! i with
           | Some gauge_id => <[i := reading (session_get i) gauge_id]> futs
           | None => futs
           end) futures run_order.

(** The futures of a scrape once the workers are through. *)
Definition futures_of (session_get : nat -> transport) (gauges : list gauge)
    (run_order : list nat) : gmap nat (res float) :=
  futures_after session_get (id_of <$> gauges) run_order ∅.

(** The registry once the workers are through: the gauge count is set, the
    readings of the previous scrape are cleared, and the tasks have left
    their rate-limit observations and their warnings. *)
Definition run_state (session_get : nat -> transport) (gauges : list gauge)
    (run_order : list nat) (st : state) : state :=
  snd (run_tasks session_get (id_of <$> gauges) run_order ∅
         (with_streamflow (fun _ => ∅)
            (with_gauges_total (Z.of_nat (length gauges)) st))).

(** The futures handed over by [as_completed], each with its gauge. *)
Definition tasks_done (gauges : list gauge) (futures : gmap nat (res float))
    (done_order : list nat) : list (gauge * res float) :=
  omap (fun i =>
          match gauges !! i, futures !! i with
          | Some g, Some outcome => Some (g, outcome)
          | _, _ => None
          end) done_order.

(** The labels under which a collected task is published, and the value
    published: the reading, or not-available when the future raised. *)
Definition task_labels (t : gauge * res float) : string * string * string :=
  gauge_labels (fst t).

Definition task_value (t : gauge * res float) : float :=
  match snd t with Ok v => v | Raise _ => nan end.

(** The samples of [USGS_STREAMFLOW] after the tasks were collected. *)
Definition samples (tasks : list (gauge * res float))
    (m : gmap (string * string * string) float) : gmap (string * string * string) float :=
  foldl (fun m t => <[task_labels t := task_value t]> m) m tasks.

(** The registry at the end of a scrape that went through. *)
Definition snapshot_of (session_get : nat -> transport) (gauges : list gauge)
    (run_order done_order : list nat) (start_time end_time : float) (st : state) : state :=
  let tasks := tasks_done gauges (futures_of session_get gauges run_order) done_order in
  with_duration (PrimFloat.sub end_time start_time)
    (with_failure 0
       (with_success (Z.of_nat (length tasks))
          (with_streamflow (samples tasks)
             (run_state session_get gauges run_order st)))).

(** The samples of [USGS_STREAMFLOW] whose [gauge_id] label is [gauge_id]. *)
Definition entries_for (gauge_id : string) (m : gmap (string * string * string) float) :
    list (string * string * string * float) :=
  filter (fun kv => kv.1.1.1 = gauge_id) (map_to_list m).

(** The claim as the specification words it: one sample for each gauge id of
    the list. *)
Definition one_entry_per_gauge_id (gauges : list gauge) (snapshot : state) : Prop :=
  forall g, g ∈ gauges ->
    length (entries_for (py_str (id_of g)) (USGS_STREAMFLOW snapshot)) = 1%nat.






(** A computation that prints nothing. *)
Definition quiet {A : Type} (m : M A) : Prop :=
  forall st, stdout (snd (m st)) = stdout st.

(** The rate-limit metrics, which no scrape clears. *)
Definition rate_limit_fields (st : state) :
    gmap string float * gmap string float * gmap string float :=
  (USGS_API_RATELIMIT_REMAINING st, USGS_API_RATELIMIT_LIMIT st,
   USGS_API_REQUESTS_PER_HOUR st).

(** An outcome of [session.get] that gives no response to read: the call
    raised, or [raise_for_status] raises on the response. *)
Definition refused (o : get_outcome) : Prop :=
  match o with
  | GetRaises _ => True
  | GetReturns r => exists e, raise_for_status r = Raise e
  end.

(** A warning of [fetch_usgs_gauge] about the gauge [gauge_id] and the
    credential [key_label]. *)
Definition warning_of (gauge_id key_label : string) (l : log_line) : Prop :=
  match l with
  | WarnHTTPError g k _ | WarnFetchError g k _ => g = gauge_id /\ k = key_label
  | _ => False
  end.



(** ** Sample inputs *)

Definition one_feature (value : json) : json :=
  JDict [("type", JStr "FeatureCollection");
         ("features", JList [JDict [("type", JStr "Feature");
                                    ("properties", JDict [("value", value);
                                                          ("time", JStr "2024-05-01T12:00:00Z")])]])].

Definition body_42_5 : json := one_feature (JFloat 42.5).

Definition body_nested_42_5 : json :=
  one_feature (JDict [("value", JFloat 42.5); ("qualifiers", JList [JStr "P"])]).

Definition body_nested_missing : json :=
  one_feature (JDict [("qualifiers", JList [])]).

Definition body_no_features : json := JDict [("features", JList [])].

Definition rate_limit_headers (remaining limit : string) : list (string * string) :=
  [("Content-Type", "application/geo+json");
   ("X-RateLimit-Limit", limit);
   ("X-RateLimit-Remaining", remaining)].

Definition ok_response (hs : list (string * string)) (b : json) : get_outcome :=
  GetReturns (mkResponse 200 hs (Some b)).

Definition too_many_requests : get_outcome :=
  GetReturns (mkResponse 429 [("Retry-After", "3600")] None).

(** Both credentials are answered 200 with a reading and no rate-limit
    header. *)
Definition upstream_without_headers : transport :=
  fun _ _ => ok_response [("Content-Type", "application/geo+json")] body_42_5.

(** Both credentials are answered 200 with a reading; the remaining-requests
    header is not a number. *)
Definition upstream_bad_header : transport :=
  fun _ _ => ok_response (rate_limit_headers "n/a" "500") body_42_5.

(** The primary credential is over its quota; the backup is answered 200
    with a reading and no rate-limit header. *)
Definition upstream_failover_no_headers : transport :=
  fun key_label _ =>
    if String.eqb key_label "primary" then too_many_requests
    else ok_response [("Content-Type", "application/geo+json")] body_42_5.

(** The primary credential is over its quota; the backup is answered 200
    with a reading and both rate-limit headers. *)
Definition upstream_failover : transport :=
  fun key_label _ =>
    if String.eqb key_label "primary" then too_many_requests
    else ok_response (rate_limit_headers "450" "500") body_42_5.

(** Both credentials are over their quota. *)
Definition upstream_exhausted : transport := fun _ _ => too_many_requests.

(** An upstream that answers by the station alone: the remaining quota it
    reports differs from one station to the other. *)
Definition upstream_by_station : request -> get_outcome :=
  fun rq =>
    match dict_get "monitoring_location_id" (params rq) with
    | Some "USGS-09380000" => ok_response (rate_limit_headers "450" "500") body_42_5
    | _ => ok_response (rate_limit_headers "449" "500") body_no_features
    end.

Definition lees_ferry : list (string * yaml) :=
  [("id", YStr "09380000"); ("name", YStr "Colorado River at Lees Ferry")].

Definition cisco : list (string * yaml) :=
  [("id", YStr "09180500"); ("name", YStr "Colorado River near Cisco")].

(** The same station listed twice under two names. *)
Definition lees_ferry_again : list (string * yaml) :=
  [("id", YStr "09380000"); ("name", YStr "Lees Ferry"); ("friendly_name", YStr "Lees")].

Definition gauge_file (gs : list (list (string * yaml))) : res yaml :=
  Ok (YList (YDict <$> gs)).

(** Instances of the two Python built-ins for inputs that never reach them. *)
Definition sample_repr : yaml -> string := fun _ => "".
Definition sample_float_of_str : string -> option float := fun _ => None.

(** ** The Python built-ins at work *)

Example py_int_of_str_examples :
  py_int_of_str "450" = Ok 450
  /\ py_int_of_str " 500 " = Ok 500
  /\ py_int_of_str "-3" = Ok (-3)
  /\ py_int_of_str "1_000" = Ok 1000
  /\ py_int_of_str "n/a" = Raise ValueError
  /\ py_int_of_str "" = Raise ValueError
  /\ py_int_of_str "4.5" = Raise ValueError
  /\ py_int None = Raise TypeError.
Proof. repeat split; reflexivity. Qed.

Example py_float_of_int_examples :
  py_float_of_int 42 = Ok 42%float
  /\ py_float_of_int (2 ^ 53 + 1) = Ok 9007199254740992%float
  /\ py_float_of_int (10 ^ 400) = Raise OverflowError.
Proof. repeat split; vm_compute; reflexivity. Qed.

Example headers_get_ignores_case :
  headers_get "X-RateLimit-Remaining" [("x-ratelimit-remaining", "450")] = Some "450".
Proof. reflexivity. Qed.

(** ** Properties of [load_gauges] *)

Lemma check_entries_malformed (gs : list yaml) (g : yaml) :
  g ∈ gs -> well_formed_entry g = false -> check_entries gs = Raise ValueError.
Proof.
  intros Hin Hbad. induction Hin as [g gs | g g' gs Hin IH]; simpl.
  - destruct g; simpl in *; try reflexivity. now rewrite Hbad.
  - destruct (check_entry g') as [d | e] eqn:Hg'; simpl.
    + now rewrite IH.
    + destruct g'; simpl in Hg'; try congruence.
      destruct (dict_contains "id" d); congruence.
Qed.

Lemma check_entries_ok (gs : list yaml) (ds : list gauge) :
  check_entries gs = Ok ds ->
  gs = YDict <$> ds /\ Forall (fun d => dict_contains "id" d = true) ds.
Proof.
  revert ds. induction gs as [| g gs IH]; simpl; intros ds H.
  - inversion H. split; [reflexivity | constructor].
  - destruct g; simpl in H; try discriminate.
    destruct (dict_contains "id" d) eqn:Hid; simpl in H; try discriminate.
    destruct (check_entries gs) as [ds' |]; simpl in H; try discriminate.
    inversion H; subst. destruct (IH ds' eq_refl) as [-> Hall].
    split; [reflexivity | now constructor].
Qed.

Lemma check_entries_well_formed (ds : list gauge) :
  Forall (fun d => dict_contains "id" d = true) ds ->
  check_entries (YDict <$> ds) = Ok ds.
Proof.
  induction 1 as [| d ds Hd _ IH]; [reflexivity |].
  rewrite fmap_cons. cbn [check_entries check_entry res_bind].
  rewrite Hd. cbn [res_bind]. now rewrite IH.
Qed.

(** What the file leads to: its descriptors when it reads well, the empty
    list and one printed error otherwise. *)
Lemma load_gauges_eq (file : res yaml) (st : state) :
  load_gauges file st =
  match read_gauges file with
  | Ok gauges => (Ok gauges, st)
  | Raise e => (Ok [], with_stdout (fun out => out ++ [ErrorLoadingGauges e]) st)
  end.
Proof.
  unfold load_gauges, try_except, lift. now destruct (read_gauges file).
Qed.

(** The list that comes back is the whole list of the file or no list at
    all. *)
Lemma load_gauges_all_or_nothing (file : res yaml) (st st' : state) (gauges : list gauge) :
  load_gauges file st = (Ok gauges, st') ->
  gauges = [] \/ file = gauge_file gauges.
Proof.
  rewrite load_gauges_eq. destruct (read_gauges file) as [ds | e] eqn:Hread.
  - intros [= <- _]. right. unfold read_gauges in Hread.
    destruct file as [doc | e]; simpl in Hread; try discriminate.
    destruct doc; try discriminate.
    apply check_entries_ok in Hread as [-> _]. reflexivity.
  - intros [= <- _]. now left.
Qed.

(** C8. A gauge file that is not a list, or that lists an entry which is not
    a mapping or has no ["id"], is rejected as a whole: [load_gauges] returns
    the empty list and prints one error, and leaves the registry alone. *)
Theorem load_gauges_rejects_malformed (doc : yaml) (st : state) :
  malformed doc ->
  load_gauges (Ok doc) st =
  (Ok [], with_stdout (fun out => out ++ [ErrorLoadingGauges ValueError]) st).
Proof.
  intros Hbad. rewrite load_gauges_eq. unfold read_gauges; simpl.
  destruct doc; try reflexivity.
  destruct Hbad as (g & Hin & Hg).
  now rewrite (check_entries_malformed l g Hin Hg).
Qed.

(** ** Properties of the parsing of a response body *)

Lemma py_float_number (v : json) (x : float) :
  number_value v = Some x -> py_float v = Ok x.
Proof.
  destruct v; simpl; try discriminate.
  - unfold py_float_of_int. destruct (float_overflows z); congruence.
  - congruence.
Qed.

Lemma number_not_dict (v : json) (x : float) :
  number_value v = Some x -> forall d, v <> JDict d.
Proof. destruct v; simpl; congruence. Qed.

(** C6. The body of a response is read as the specification says: with at
    least one feature, a plain number under [properties.value] is the
    reading, a nested structure gives its inner [value] and not-available
    when that field is missing; with no feature the reading is not-available
    and nothing is raised. *)
Theorem parse_reading_spec (data : json) (x : float) :
  spec_reading data x -> parse_reading (Some data) = Ok x.
Proof.
  intros H. destruct H as
    [d first rest props v x Hf Hp Hv Hx
    | d first rest props inner v x Hf Hp Hv Hi Hx
    | d first rest props inner Hf Hp Hv Hi
    | d Hf];
    unfold parse_reading; simpl; rewrite Hf; simpl; try reflexivity;
    unfold dict_index; rewrite Hp; simpl; rewrite Hv; simpl.
  - destruct v; simpl in Hx; try discriminate; now apply py_float_number.
  - rewrite Hi. now apply py_float_number.
  - now rewrite Hi.
Qed.

(** ** Properties of [fetch_usgs_gauge] *)

Lemma on_error_eq (gauge_id : yaml) (key_label : string) (e : exn) (st : state) :
  on_error gauge_id key_label e st = (Ok tt, warned gauge_id key_label e st).
Proof.
  unfold on_error, warned. destruct e as [| | | | | | | | | code |]; try reflexivity.
  destruct (code =? 429); reflexivity.
Qed.

(** One turn of the loop: a reading ends the loop, an exception is handled
    and the next credential is tried. *)
Lemma fetch_with_keys_cons (session_get : transport) (gauge_id : yaml)
    (key_label : string) (api_key : option string)
    (rest : list (string * option string)) (st : state) :
  fetch_with_keys session_get gauge_id ((key_label, api_key) :: rest) st =
  match attempt session_get gauge_id key_label api_key st with
  | (Ok v, st') => (Ok v, st')
  | (Raise e, st') =>
      fetch_with_keys session_get gauge_id rest (warned gauge_id key_label e st')
  end.
Proof.
  simpl. unfold bind at 1. unfold try_except. unfold bind at 1.
  destruct (attempt session_get gauge_id key_label api_key st) as [[v | e] st'].
  - reflexivity.
  - unfold bind at 1. rewrite on_error_eq. reflexivity.
Qed.

Lemma fetch_with_keys_total (session_get : transport) (gauge_id : yaml)
    (keys : list (string * option string)) (st : state) :
  exists v st', fetch_with_keys session_get gauge_id keys st = (Ok v, st').
Proof.
  revert st. induction keys as [| [key_label api_key] rest IH]; intros st.
  - now exists nan, st.
  - rewrite fetch_with_keys_cons.
    destruct (attempt session_get gauge_id key_label api_key st) as [[v | e] st'].
    + now exists v, st'.
    + apply IH.
Qed.

(** C7. [fetch_usgs_gauge] never raises, whatever the upstream answers: it
    returns the reading of the first credential whose attempt goes through;
    an attempt that raises is logged (the 429 apart) and the next credential
    is tried; when both attempts raise the result is not-available. *)
Theorem fetch_usgs_gauge_total (session_get : transport) (gauge_id : yaml) (st : state) :
  exists v st',
    fetch_usgs_gauge session_get gauge_id st = (Ok v, st') /\
    match attempt session_get gauge_id "primary" API_KEY_PRIMARY st with
    | (Ok v1, st1) => v = v1 /\ st' = st1
    | (Raise e1, st1) =>
        match attempt session_get gauge_id "backup" API_KEY_BACKUP
                (warned gauge_id "primary" e1 st1) with
        | (Ok v2, st2) => v = v2 /\ st' = st2
        | (Raise e2, st2) => v = nan /\ st' = warned gauge_id "backup" e2 st2
        end
    end.
Proof.
  unfold fetch_usgs_gauge. rewrite fetch_with_keys_cons.
  destruct (attempt session_get gauge_id "primary" API_KEY_PRIMARY st) as [[v1 | e1] st1].
  - now exists v1, st1.
  - rewrite fetch_with_keys_cons.
    destruct (attempt session_get gauge_id "backup" API_KEY_BACKUP _) as [[v2 | e2] st2].
    + now exists v2, st2.
    + now eexists _, _.
Qed.

(** *** The rate-limit headers *)

Lemma insert_labels (label : string) (n : float) (m : gmap string float) :
  <[label := n]> (labels label m) = <[label := n]> m.
Proof.
  unfold labels. destruct (m !! label); [reflexivity |].
  apply insert_insert_eq.
Qed.

(** With both headers present and readable, lines 109 to 126 record the
    remaining quota, the limit and their difference for the credential, each
    as the double [set] makes of it. *)
Lemma update_rate_limits_observed (key_label : string) (r : response)
    (s_rem s_lim : string) (remaining limit : Z) (st : state) :
  headers_get "X-RateLimit-Remaining" (headers r) = Some s_rem ->
  headers_get "X-RateLimit-Limit" (headers r) = Some s_lim ->
  py_int_of_str s_rem = Ok remaining ->
  py_int_of_str s_lim = Ok limit ->
  float_overflows remaining = false ->
  float_overflows limit = false ->
  float_overflows (limit - remaining) = false ->
  update_rate_limits key_label r st = (Ok tt, observed key_label remaining limit st).
Proof.
  intros Hr Hl Hpr Hpl Hor Hol Hou.
  unfold update_rate_limits. rewrite Hr, Hl.
  unfold bind, try_except, modify, lift, check_sample, py_int. simpl.
  rewrite Hpr, Hpl, Hor, Hol, Hou. simpl.
  unfold observed, with_used, with_limit, with_remaining; simpl.
  now rewrite !insert_labels.
Qed.

(** The example of the specification: the headers 450 and 500 on a response
    to the primary credential give remaining 450, limit 500 and used 50. *)
Example rate_limit_observation_450_500 :
  update_rate_limits "primary"
    (mkResponse 200 (rate_limit_headers "450" "500") (Some body_42_5)) initial_state
  = (Ok tt, observed "primary" 450 500 initial_state).
Proof. now apply (update_rate_limits_observed _ _ "450" "500"). Qed.

(** Beyond 2^53 the sample is the nearest double, not the integer of the
    header: a limit of 2^53 + 1 with nothing used is recorded as 2^53. *)
Example rate_limit_observation_rounds :
  update_rate_limits "primary"
    (mkResponse 200 (rate_limit_headers "0" "9007199254740993") (Some body_42_5))
    initial_state
  = (Ok tt, observed "primary" 0 9007199254740993 initial_state)
  /\ USGS_API_RATELIMIT_LIMIT (observed "primary" 0 9007199254740993 initial_state)
       !! "primary" = Some 9007199254740992%float
  /\ USGS_API_REQUESTS_PER_HOUR (observed "primary" 0 9007199254740993 initial_state)
       !! "primary" = Some 9007199254740992%float.
Proof.
  split; [now apply (update_rate_limits_observed _ _ "0" "9007199254740993") |].
  split; vm_compute; reflexivity.
Qed.

(** C3, at the inputs where the code leaves the claim.  A 200 response
    without rate-limit headers does not yield its reading: line 125 raises a
    [TypeError], the reading 42.5 is lost for both credentials and the result
    is not-available.  A header that is not a number is not ignored either:
    line 125 raises the [ValueError] that line 113 had passed over. *)
Theorem rate_limit_headers_required (gauge_id : yaml) (st : state) :
  fetch_usgs_gauge upstream_without_headers gauge_id st
  = (Ok nan,
     warned gauge_id "backup" TypeError (warned gauge_id "primary" TypeError st))
  /\ fst (fetch_usgs_gauge upstream_bad_header gauge_id st) = Ok nan
  /\ stdout (snd (fetch_usgs_gauge upstream_bad_header gauge_id st))
     = stdout st ++ [WarnFetchError (py_str gauge_id) "primary" ValueError;
                     WarnFetchError (py_str gauge_id) "backup" ValueError].
Proof.
  split; [reflexivity |]. split; [reflexivity |].
  transitivity ((stdout st ++ [WarnFetchError (py_str gauge_id) "primary" ValueError])
                  ++ [WarnFetchError (py_str gauge_id) "backup" ValueError]).
  - reflexivity.
  - now rewrite <- app_assoc.
Qed.

(** *** Failover from the primary to the backup credential *)

(** C4, at the input where the code leaves the claim.  The primary
    credential is refused with 429 and the backup is answered 200 with a
    valid feature list holding 42.5, but without rate-limit headers: the
    result is not-available, not 42.5, and a warning is printed for the
    backup. *)
Theorem failover_loses_reading_without_headers (gauge_id : yaml) (st : state) :
  fetch_usgs_gauge upstream_failover_no_headers gauge_id st
  = (Ok nan, warned gauge_id "backup" TypeError st)
  /\ spec_reading body_42_5 42.5%float.
Proof.
  split; [reflexivity |].
  eapply reading_plain; reflexivity.
Qed.

Lemma attempt_refused (session_get : transport) (gauge_id : yaml)
    (key_label : string) (api_key : option string) (r : response) (e : exn)
    (st : state) :
  session_get key_label (build_request gauge_id api_key) = GetReturns r ->
  raise_for_status r = Raise e ->
  attempt session_get gauge_id key_label api_key st = (Raise e, st).
Proof.
  intros Hget Hstatus. unfold attempt, bind, lift. now rewrite Hget, Hstatus.
Qed.

Lemma attempt_reads (session_get : transport) (gauge_id : yaml)
    (key_label : string) (api_key : option string) (r : response) (x : float)
    (s_rem s_lim : string) (remaining limit : Z) (st : state) :
  session_get key_label (build_request gauge_id api_key) = GetReturns r ->
  raise_for_status r = Ok tt ->
  headers_get "X-RateLimit-Remaining" (headers r) = Some s_rem ->
  headers_get "X-RateLimit-Limit" (headers r) = Some s_lim ->
  py_int_of_str s_rem = Ok remaining ->
  py_int_of_str s_lim = Ok limit ->
  float_overflows remaining = false ->
  float_overflows limit = false ->
  float_overflows (limit - remaining) = false ->
  parse_reading (body r) = Ok x ->
  attempt session_get gauge_id key_label api_key st
  = (Ok x, observed key_label remaining limit st).
Proof.
  intros Hget Hstatus Hr Hl Hpr Hpl Hor Hol Hou Hx.
  unfold attempt. unfold bind at 1, lift at 1. rewrite Hget.
  unfold bind at 1, lift at 1. rewrite Hstatus.
  unfold bind at 1.
  rewrite (update_rate_limits_observed _ _ _ _ _ _ _ Hr Hl Hpr Hpl Hor Hol Hou).
  unfold lift. now rewrite Hx.
Qed.

(** What does hold: when the backup's response carries both headers, the
    429 of the primary is passed over silently and the backup's reading is
    returned, with the backup's quota recorded. *)
Lemma failover_with_headers (session_get : transport) (gauge_id : yaml)
    (r1 r2 : response) (x : float)
    (s_rem s_lim : string) (remaining limit : Z) (st : state) :
  session_get "primary" (build_request gauge_id API_KEY_PRIMARY) = GetReturns r1 ->
  status_code r1 = 429 ->
  session_get "backup" (build_request gauge_id API_KEY_BACKUP) = GetReturns r2 ->
  raise_for_status r2 = Ok tt ->
  headers_get "X-RateLimit-Remaining" (headers r2) = Some s_rem ->
  headers_get "X-RateLimit-Limit" (headers r2) = Some s_lim ->
  py_int_of_str s_rem = Ok remaining ->
  py_int_of_str s_lim = Ok limit ->
  float_overflows remaining = false ->
  float_overflows limit = false ->
  float_overflows (limit - remaining) = false ->
  parse_reading (body r2) = Ok x ->
  fetch_usgs_gauge session_get gauge_id st
  = (Ok x, observed "backup" remaining limit st).
Proof.
  intros H1 Hs1 H2 Hs2 Hr Hl Hpr Hpl Hor Hol Hou Hx.
  unfold fetch_usgs_gauge. rewrite fetch_with_keys_cons.
  rewrite (attempt_refused _ _ _ _ r1 (HTTPError 429) st H1)
    by (unfold raise_for_status; now rewrite Hs1).
  rewrite fetch_with_keys_cons.
  change (warned gauge_id "primary" (HTTPError 429) st) with st.
  now rewrite (attempt_reads _ _ _ _ r2 x s_rem s_lim remaining limit st).
Qed.

(** *** What a call returns does not depend on the registry *)

Lemma oblivious_ret {A : Type} (a : A) : oblivious (ret a).
Proof. now intros st st'. Qed.

Lemma oblivious_raise {A : Type} (e : exn) : oblivious (@raise A e).
Proof. now intros st st'. Qed.

Lemma oblivious_lift {A : Type} (r : res A) : oblivious (lift r).
Proof. now intros st st'. Qed.

Lemma oblivious_modify (f : state -> state) : oblivious (modify f).
Proof. now intros st st'. Qed.

Lemma oblivious_print (l : log_line) : oblivious (print l).
Proof. now intros st st'. Qed.

Lemma oblivious_bind {A B : Type} (m : M A) (k : A -> M B) :
  oblivious m -> (forall a, oblivious (k a)) -> oblivious (bind m k).
Proof.
  intros Hm Hk st st'. unfold bind. specialize (Hm st st').
  destruct (m st) as [[a | e] s1], (m st') as [[a' | e'] s1'];
    simpl in Hm; try discriminate.
  - injection Hm as ->. apply Hk.
  - now injection Hm as ->.
Qed.

Lemma oblivious_try_except {A : Type} (m : M A) (h : exn -> M A) :
  oblivious m -> (forall e, oblivious (h e)) -> oblivious (try_except m h).
Proof.
  intros Hm Hh st st'. unfold try_except. specialize (Hm st st').
  destruct (m st) as [[a | e] s1], (m st') as [[a' | e'] s1'];
    simpl in Hm; try discriminate.
  - assumption.
  - injection Hm as ->. apply Hh.
Qed.

Create HintDb oblivious.
#[local] Hint Resolve oblivious_ret oblivious_raise oblivious_lift oblivious_modify
  oblivious_print : oblivious.

Ltac oblivious_step :=
  first [ apply oblivious_bind; [| intros ?]
        | apply oblivious_try_except; [| intros ?]
        | solve [auto with oblivious] ].

Lemma oblivious_pass_ValueError (e : exn) : oblivious (pass_ValueError e).
Proof. unfold pass_ValueError. destruct (is_ValueError e); auto with oblivious. Qed.

Lemma oblivious_update_rate_limits (key_label : string) (r : response) :
  oblivious (update_rate_limits key_label r).
Proof.
  unfold update_rate_limits.
  destruct (headers_get "X-RateLimit-Remaining" (headers r));
    destruct (headers_get "X-RateLimit-Limit" (headers r));
    repeat first [ apply oblivious_pass_ValueError | oblivious_step ].
Qed.

Lemma oblivious_attempt (session_get : transport) (gauge_id : yaml)
    (key_label : string) (api_key : option string) :
  oblivious (attempt session_get gauge_id key_label api_key).
Proof.
  unfold attempt.
  repeat first [ apply oblivious_update_rate_limits | oblivious_step ].
Qed.

Lemma oblivious_on_error (gauge_id : yaml) (key_label : string) (e : exn) :
  oblivious (on_error gauge_id key_label e).
Proof.
  unfold on_error. destruct e as [| | | | | | | | | code |]; auto with oblivious.
  destruct (code =? 429); auto with oblivious.
Qed.

Lemma oblivious_fetch_with_keys (session_get : transport) (gauge_id : yaml)
    (keys : list (string * option string)) :
  oblivious (fetch_with_keys session_get gauge_id keys).
Proof.
  induction keys as [| [key_label api_key] rest IH]; simpl.
  - auto with oblivious.
  - apply oblivious_bind.
    + apply oblivious_try_except.
      * apply oblivious_bind; [apply oblivious_attempt | auto with oblivious].
      * intros e. apply oblivious_bind; [apply oblivious_on_error | auto with oblivious].
    + intros [v |]; [auto with oblivious | exact IH].
Qed.

Lemma fetch_usgs_gauge_reading (session_get : transport) (gauge_id : yaml) (st : state) :
  fst (fetch_usgs_gauge session_get gauge_id st) = reading session_get gauge_id.
Proof. apply oblivious_fetch_with_keys. Qed.

Lemma reading_ok (session_get : transport) (gauge_id : yaml) :
  exists v, reading session_get gauge_id = Ok v.
Proof.
  unfold reading, fetch_usgs_gauge.
  destruct (fetch_with_keys_total session_get gauge_id
              [("primary", API_KEY_PRIMARY); ("backup", API_KEY_BACKUP)] initial_state)
    as (v & st' & H).
  exists v. now rewrite H.
Qed.




(** ** Properties of [metrics] *)

(** [x != float("nan")] holds for every float [x], not-a-number included:
    no float is equal to not-a-number. *)
Lemma ne_nan (x : float) : negb (PrimFloat.eqb x nan) = true.
Proof.
  rewrite FloatAxioms.eqb_spec. unfold SFeqb, SFcompare.
  replace (Prim2SF nan) with S754_nan by reflexivity.
  now destruct (Prim2SF x).
Qed.

(** *** Submitting and running the tasks *)

Lemma read_gauges_has_id (file : res yaml) (gauges : list gauge) :
  read_gauges file = Ok gauges -> Forall has_id gauges.
Proof.
  unfold read_gauges. destruct file as [doc |]; simpl; try discriminate.
  destruct doc; try discriminate. intros H. now apply check_entries_ok in H.
Qed.

Lemma read_gauge_file (gauges : list gauge) :
  Forall has_id gauges -> read_gauges (gauge_file gauges) = Ok gauges.
Proof. intros H. unfold read_gauges, gauge_file; simpl. now apply check_entries_well_formed. Qed.

Lemma submit_all_ok (gauges : list gauge) :
  Forall has_id gauges -> submit_all gauges = (id_of <$> gauges, None).
Proof.
  induction 1 as [| g gs Hg _ IH]; [reflexivity |].
  rewrite fmap_cons. cbn [submit_all]. rewrite IH.
  unfold has_id, dict_contains in Hg. unfold dict_index, id_of.
  now destruct (dict_get "id" g).
Qed.

Lemma futures_after_cons (session_get : nat -> transport) (ids : list yaml)
    (i : nat) (rest : list nat) (futures : gmap nat (res float)) :
  futures_after session_get ids (i :: rest) futures
  = futures_after session_get ids rest
      match ids !! i with
      | Some gauge_id => <[i := reading (session_get i) gauge_id]> futures
      | None => futures
      end.
Proof. reflexivity. Qed.

Lemma run_tasks_futures (session_get : nat -> transport) (ids : list yaml)
    (run_order : list nat) (futures : gmap nat (res float)) (st : state) :
  fst (run_tasks session_get ids run_order futures st)
  = Ok (futures_after session_get ids run_order futures).
Proof.
  revert futures st. induction run_order as [| i rest IH]; intros futures st.
  - reflexivity.
  - rewrite futures_after_cons. cbn [run_tasks]. unfold bind at 1, run_task.
    destruct (ids !! i) as [gauge_id |] eqn:Hi.
    + pose proof (fetch_usgs_gauge_reading (session_get i) gauge_id st) as Hr.
      destruct (fetch_usgs_gauge (session_get i) gauge_id st) as [outcome st'].
      simpl in Hr. subst outcome. apply IH.
    + apply IH.
Qed.

Lemma futures_after_lookup (session_get : nat -> transport) (ids : list yaml)
    (run_order : list nat) (futures : gmap nat (res float)) (i : nat) :
  futures_after session_get ids run_order futures !! i =
  match ids !! i with
  | Some gauge_id =>
      if decide (i ∈ run_order) then Some (reading (session_get i) gauge_id)
      else futures !! i
  | None => futures !! i
  end.
Proof.
  revert futures. induction run_order as [| j rest IH]; intros futures.
  - cbn. now destruct (ids !! i).
  - rewrite futures_after_cons, IH. destruct (ids !! i) as [gauge_id |] eqn:Hi.
    + destruct (decide (i = j)) as [-> | Hne].
      * rewrite Hi, lookup_insert_eq.
        rewrite (decide_True (P := j ∈ j :: rest)) by apply list_elem_of_here.
        now destruct (decide (j ∈ rest)).
      * assert ((match ids !! j with
                 | Some gauge_id0 => <[j := reading (session_get j) gauge_id0]> futures
                 | None => futures
                 end) !! i = futures !! i) as ->.
        { destruct (ids !! j); [now rewrite lookup_insert_ne | reflexivity]. }
        destruct (decide (i ∈ rest)) as [Hin | Hnin].
        -- rewrite decide_True; [reflexivity | now apply list_elem_of_further].
        -- rewrite decide_False; [reflexivity |].
           intros [? | ?]%elem_of_cons; congruence.
    + destruct (decide (i = j)) as [-> | Hne].
      * now rewrite Hi.
      * destruct (ids !! j); [now rewrite lookup_insert_ne | reflexivity].
Qed.

(** *** Collecting the results *)

Lemma collect_one_ok (g : gauge) (v : float) (successes failures : Z) (st : state) :
  collect_one g (Ok v) (successes, failures) st
  = (Ok (successes + 1, failures), with_streamflow <[gauge_labels g := v]> st).
Proof.
  unfold collect_one, bind, try_except, lift. cbn. rewrite ne_nan. reflexivity.
Qed.

Lemma collect_eq (gauges : list gauge) (futures : gmap nat (res float))
    (done_order : list nat) (successes failures : Z) (st : state) :
  (forall i outcome, futures !! i = Some outcome -> exists v, outcome = Ok v) ->
  collect gauges futures done_order (successes, failures) st
  = (Ok (successes + Z.of_nat (length (tasks_done gauges futures done_order)), failures),
     with_streamflow (samples (tasks_done gauges futures done_order)) st).
Proof.
  intros Hok. revert successes st.
  induction done_order as [| i rest IH]; intros successes st.
  - cbn. rewrite Z.add_0_r. now destruct st.
  - cbn [collect tasks_done omap list_omap].
    fold (tasks_done gauges futures rest).
    destruct (gauges !! i) as [g |]; [| apply IH].
    destruct (futures !! i) as [outcome |] eqn:Hf; [| apply IH].
    destruct (Hok i outcome Hf) as [v ->].
    unfold bind at 1. rewrite collect_one_ok, IH.
    cbn [length samples foldl fst snd]. f_equal. f_equal. f_equal. lia.
Qed.

(** *** What a call leaves alone in the registry *)

Lemma preserves_ret {A : Type} (a : A) : preserves (ret a).
Proof. now intros st. Qed.

Lemma preserves_raise {A : Type} (e : exn) : preserves (@raise A e).
Proof. now intros st. Qed.

Lemma preserves_lift {A : Type} (r : res A) : preserves (lift r).
Proof. now intros st. Qed.

Lemma preserves_print (l : log_line) : preserves (print l).
Proof. now intros st. Qed.

Lemma preserves_with_remaining (f : gmap string float -> gmap string float) :
  preserves (modify (with_remaining f)).
Proof. now intros st. Qed.

Lemma preserves_with_limit (f : gmap string float -> gmap string float) :
  preserves (modify (with_limit f)).
Proof. now intros st. Qed.

Lemma preserves_with_used (f : gmap string float -> gmap string float) :
  preserves (modify (with_used f)).
Proof. now intros st. Qed.

Lemma preserves_bind {A B : Type} (m : M A) (k : A -> M B) :
  preserves m -> (forall a, preserves (k a)) -> preserves (bind m k).
Proof.
  intros Hm Hk st. unfold bind. specialize (Hm st).
  destruct (m st) as [[a | e] s1]; simpl in Hm.
  - now rewrite Hk.
  - assumption.
Qed.

Lemma preserves_try_except {A : Type} (m : M A) (h : exn -> M A) :
  preserves m -> (forall e, preserves (h e)) -> preserves (try_except m h).
Proof.
  intros Hm Hh st. unfold try_except. specialize (Hm st).
  destruct (m st) as [[a | e] s1]; simpl in Hm.
  - assumption.
  - now rewrite Hh.
Qed.

Create HintDb preserves.
#[local] Hint Resolve preserves_ret preserves_raise preserves_lift preserves_print
  preserves_with_remaining preserves_with_limit preserves_with_used : preserves.

Ltac preserves_step :=
  first [ apply preserves_bind; [| intros ?]
        | apply preserves_try_except; [| intros ?]
        | solve [auto with preserves] ].

Lemma preserves_pass_ValueError (e : exn) : preserves (pass_ValueError e).
Proof. unfold pass_ValueError. destruct (is_ValueError e); auto with preserves. Qed.

Lemma preserves_update_rate_limits (key_label : string) (r : response) :
  preserves (update_rate_limits key_label r).
Proof.
  unfold update_rate_limits.
  destruct (headers_get "X-RateLimit-Remaining" (headers r));
    destruct (headers_get "X-RateLimit-Limit" (headers r));
    repeat first [ apply preserves_pass_ValueError | preserves_step ].
Qed.

Lemma preserves_attempt (session_get : transport) (gauge_id : yaml)
    (key_label : string) (api_key : option string) :
  preserves (attempt session_get gauge_id key_label api_key).
Proof.
  unfold attempt.
  repeat first [ apply preserves_update_rate_limits | preserves_step ].
Qed.

Lemma preserves_on_error (gauge_id : yaml) (key_label : string) (e : exn) :
  preserves (on_error gauge_id key_label e).
Proof.
  unfold on_error. destruct e as [| | | | | | | | | code |]; auto with preserves.
  destruct (code =? 429); auto with preserves.
Qed.

Lemma preserves_fetch_usgs_gauge (session_get : transport) (gauge_id : yaml) :
  preserves (fetch_usgs_gauge session_get gauge_id).
Proof.
  unfold fetch_usgs_gauge.
  generalize [("primary", API_KEY_PRIMARY); ("backup", API_KEY_BACKUP)].
  intros keys. induction keys as [| [key_label api_key] rest IH]; simpl.
  - auto with preserves.
  - apply preserves_bind.
    + apply preserves_try_except.
      * apply preserves_bind; [apply preserves_attempt | auto with preserves].
      * intros e. apply preserves_bind; [apply preserves_on_error | auto with preserves].
    + intros [v |]; [auto with preserves | exact IH].
Qed.

Lemma preserves_run_tasks (session_get : nat -> transport) (ids : list yaml)
    (run_order : list nat) (futures : gmap nat (res float)) :
  preserves (run_tasks session_get ids run_order futures).
Proof.
  revert futures. induction run_order as [| i rest IH]; intros futures; simpl.
  - auto with preserves.
  - apply preserves_bind; [| intros futures'; apply IH].
    unfold run_task. destruct (ids !! i) as [gauge_id |]; [| auto with preserves].
    intros st. pose proof (preserves_fetch_usgs_gauge (session_get i) gauge_id st) as H.
    now destruct (fetch_usgs_gauge (session_get i) gauge_id st).
Qed.

(** *** One scrape, end to end *)

Lemma futures_of_ok (session_get : nat -> transport) (gauges : list gauge)
    (run_order : list nat) (i : nat) (outcome : res float) :
  futures_of session_get gauges run_order !! i = Some outcome ->
  exists v, outcome = Ok v.
Proof.
  unfold futures_of. rewrite futures_after_lookup, lookup_empty.
  destruct ((id_of <$> gauges) !! i) as [gauge_id |]; [| discriminate].
  destruct (decide (i ∈ run_order)); [| discriminate].
  intros [= <-]. apply reading_ok.
Qed.

Lemma futures_of_lookup (session_get : nat -> transport) (gauges : list gauge)
    (run_order : list nat) (i : nat) (g : gauge) :
  gauges !! i = Some g -> i ∈ run_order ->
  futures_of session_get gauges run_order !! i
  = Some (reading (session_get i) (id_of g)).
Proof.
  intros Hg Hin. unfold futures_of.
  rewrite futures_after_lookup, list_lookup_fmap, Hg. simpl.
  now rewrite decide_True.
Qed.

Lemma run_state_scrape_fields (session_get : nat -> transport) (gauges : list gauge)
    (run_order : list nat) (st : state) :
  scrape_fields (run_state session_get gauges run_order st)
  = (∅, SCRAPE_SUCCESS st, SCRAPE_FAILURE st, Z.of_nat (length gauges), SCRAPE_DURATION st).
Proof. unfold run_state. now rewrite preserves_run_tasks. Qed.

(** A scrape of a file that reads well, with a pool of at least one worker,
    returns the registry described by [snapshot_of]. *)
Lemma metrics_eq (file : res yaml) (gauges : list gauge)
    (session_get : nat -> transport) (run_order done_order : list nat)
    (start_time end_time : float) (st : state) :
  read_gauges file = Ok gauges ->
  0 < Z.min MAX_WORKERS (Z.of_nat (length gauges)) ->
  metrics file session_get run_order done_order start_time end_time st
  = (Ok (snapshot_of session_get gauges run_order done_order start_time end_time st),
     snapshot_of session_get gauges run_order done_order start_time end_time st).
Proof.
  intros Hread Hpool. unfold metrics.
  unfold bind at 1. rewrite load_gauges_eq, Hread.
  unfold bind at 1, modify at 1. unfold bind at 1, modify at 1.
  unfold bind at 1, lift at 1, ThreadPoolExecutor.
  destruct (Z.min MAX_WORKERS (Z.of_nat (length gauges)) <=? 0) eqn:Hle;
    [apply Z.leb_le in Hle; lia |].
  rewrite (submit_all_ok gauges (read_gauges_has_id _ _ Hread)).
  unfold bind at 1.
  pose proof (run_tasks_futures session_get (id_of <$> gauges) run_order ∅
                (with_streamflow (fun _ => ∅)
                   (with_gauges_total (Z.of_nat (length gauges)) st))) as Hrun.
  unfold snapshot_of, run_state, futures_of.
  destruct (run_tasks session_get (id_of <$> gauges) run_order ∅ _) as [r st1].
  simpl in Hrun. subst r.
  unfold bind at 1, ret at 1. unfold bind at 1.
  rewrite collect_eq by apply (futures_of_ok session_get gauges run_order).
  reflexivity.
Qed.

(** With no worker to create, the scrape ends in the [ValueError] of
    [ThreadPoolExecutor]. *)
Lemma metrics_no_worker (file : res yaml) (session_get : nat -> transport)
    (run_order done_order : list nat) (start_time end_time : float) (st : state) :
  Z.min MAX_WORKERS
    (Z.of_nat (length (match read_gauges file with Ok gauges => gauges | Raise _ => [] end)))
  <= 0 ->
  fst (metrics file session_get run_order done_order start_time end_time st)
  = Raise ValueError.
Proof.
  intros Hpool. unfold metrics.
  unfold bind at 1. rewrite load_gauges_eq.
  destruct (read_gauges file) as [gauges | e];
    unfold bind at 1, modify at 1; unfold bind at 1, modify at 1;
    unfold bind at 1, lift at 1, ThreadPoolExecutor;
    apply Z.leb_le in Hpool; now rewrite Hpool.
Qed.

(** C1, at the input where the code leaves the claim.  With an empty gauge
    list (an empty file list, or a file that cannot be opened, which
    [load_gauges] turns into the empty list) the scrape does not return a
    snapshot: the pool size is 0 and [ThreadPoolExecutor] raises
    [ValueError], whatever [MAX_WORKERS] is. *)
Theorem metrics_empty_list_raises (session_get : nat -> transport)
    (run_order done_order : list nat) (start_time end_time : float) (st : state) :
  fst (metrics (gauge_file []) session_get run_order done_order start_time end_time st)
  = Raise ValueError
  /\ fst (metrics (Raise OSError) session_get run_order done_order start_time end_time st)
     = Raise ValueError.
Proof.
  split; apply metrics_no_worker; simpl; lia.
Qed.

(** *** The tasks collected when every task ran and every future was handed over *)

Lemma omap_length_total {A B : Type} (f : A -> option B) (l : list A) :
  Forall (fun x => is_Some (f x)) l -> length (omap f l) = length l.
Proof.
  induction 1 as [| x l [y Hy] _ IH]; [reflexivity |].
  cbn. rewrite Hy. cbn. now rewrite IH.
Qed.

Lemma tasks_done_length (session_get : nat -> transport) (gauges : list gauge)
    (run_order done_order : list nat) :
  run_order ≡ₚ seq 0 (length gauges) ->
  done_order ≡ₚ seq 0 (length gauges) ->
  length (tasks_done gauges (futures_of session_get gauges run_order) done_order)
  = length gauges.
Proof.
  intros Hrun Hdone. unfold tasks_done.
  rewrite omap_length_total.
  - rewrite Hdone. apply length_seq.
  - apply Forall_forall. intros i Hi.
    rewrite Hdone in Hi. apply elem_of_seq in Hi as [_ Hi].
    destruct (lookup_lt_is_Some_2 gauges i) as [g Hg]; [lia |].
    rewrite Hg, (futures_of_lookup _ _ _ _ g Hg); [eauto |].
    rewrite Hrun. apply elem_of_seq. lia.
Qed.

Lemma elem_of_tasks_done (session_get : nat -> transport) (gauges : list gauge)
    (run_order done_order : list nat) (g : gauge) (outcome : res float) :
  run_order ≡ₚ seq 0 (length gauges) ->
  done_order ≡ₚ seq 0 (length gauges) ->
  (g, outcome) ∈ tasks_done gauges (futures_of session_get gauges run_order) done_order
  <-> exists i, gauges !! i = Some g /\ outcome = reading (session_get i) (id_of g).
Proof.
  intros Hrun Hdone. unfold tasks_done. rewrite list_elem_of_omap. split.
  - intros (i & Hi & Hf).
    destruct (gauges !! i) as [g' |] eqn:Hg; [| discriminate].
    rewrite (futures_of_lookup _ _ _ _ g' Hg) in Hf.
    + injection Hf as <- <-. eauto.
    + rewrite Hrun. apply elem_of_seq. apply lookup_lt_Some in Hg. lia.
  - intros (i & Hg & ->). exists i.
    assert (i ∈ seq 0 (length gauges)) as Hi
      by (apply elem_of_seq; apply lookup_lt_Some in Hg; lia).
    split; [now rewrite Hdone |].
    rewrite Hg, (futures_of_lookup _ _ _ _ g Hg); [reflexivity | now rewrite Hrun].
Qed.

(** *** The samples of [USGS_STREAMFLOW] *)

Lemma samples_cons (t : gauge * res float) (tasks : list (gauge * res float))
    (m : gmap (string * string * string) float) :
  samples (t :: tasks) m = samples tasks (<[task_labels t := task_value t]> m).
Proof. reflexivity. Qed.

Lemma samples_dom (tasks : list (gauge * res float))
    (m : gmap (string * string * string) float) :
  dom (samples tasks m) = dom m ∪ list_to_set (task_labels <$> tasks).
Proof.
  revert m. induction tasks as [| t tasks IH]; intros m.
  - cbn. now rewrite (right_id_L ∅ (∪)).
  - rewrite samples_cons, IH, dom_insert_L, fmap_cons. cbn [list_to_set foldr].
    rewrite (comm_L (∪) {[task_labels t]} (dom m)).
    now rewrite (assoc_L (∪)).
Qed.

(** Every sample is the value of a collected task with these labels. *)
Lemma samples_lookup (tasks : list (gauge * res float))
    (m : gmap (string * string * string) float) (k : string * string * string) (v : float) :
  samples tasks m !! k = Some v ->
  m !! k = Some v \/ exists t, t ∈ tasks /\ task_labels t = k /\ task_value t = v.
Proof.
  revert m. induction tasks as [| t tasks IH]; intros m; [now left |].
  rewrite samples_cons. intros H. apply IH in H as [H | (t' & Hin & Hk & Hv)].
  - destruct (decide (task_labels t = k)) as [<- | Hne].
    + rewrite lookup_insert_eq in H. injection H as <-.
      right. exists t. split; [apply list_elem_of_here | easy].
    + rewrite lookup_insert_ne in H by assumption. now left.
  - right. exists t'. split; [now apply list_elem_of_further | easy].
Qed.

(** When the value of a task is a function of its labels, so are the
    samples: the order of the tasks plays no part. *)
Lemma samples_lookup_by_labels (f : string * string * string -> float)
    (tasks : list (gauge * res float))
    (m : gmap (string * string * string) float) (k : string * string * string) :
  (forall t, t ∈ tasks -> task_value t = f (task_labels t)) ->
  samples tasks m !! k
  = if decide (k ∈ task_labels <$> tasks) then Some (f k) else m !! k.
Proof.
  revert m. induction tasks as [| t tasks IH]; intros m Hf.
  - cbn. rewrite decide_False; [reflexivity | apply not_elem_of_nil].
  - rewrite samples_cons, IH
      by (intros t' Ht'; apply Hf; now apply list_elem_of_further).
    rewrite fmap_cons.
    destruct (decide (k ∈ task_labels <$> tasks)) as [Hin | Hnin].
    + rewrite decide_True; [reflexivity | now apply list_elem_of_further].
    + destruct (decide (task_labels t = k)) as [<- | Hne].
      * rewrite lookup_insert_eq, decide_True by apply list_elem_of_here.
        f_equal. apply Hf, list_elem_of_here.
      * rewrite lookup_insert_ne by assumption.
        rewrite decide_False; [reflexivity |].
        intros [? | ?]%elem_of_cons; congruence.
Qed.

Lemma task_labels_done (session_get : nat -> transport) (gauges : list gauge)
    (run_order done_order : list nat) (k : string * string * string) :
  run_order ≡ₚ seq 0 (length gauges) ->
  done_order ≡ₚ seq 0 (length gauges) ->
  k ∈ task_labels <$> tasks_done gauges (futures_of session_get gauges run_order) done_order
  <-> k ∈ gauge_labels <$> gauges.
Proof.
  intros Hrun Hdone. rewrite !list_elem_of_fmap. split.
  - intros ([g outcome] & -> & Hin).
    apply (elem_of_tasks_done _ _ _ _ _ _ Hrun Hdone) in Hin as (i & Hg & _).
    exists g. split; [reflexivity | now apply list_elem_of_lookup_2 in Hg].
  - intros (g & -> & Hin). apply list_elem_of_lookup_1 in Hin as [i Hg].
    exists (g, reading (session_get i) (id_of g)). split; [reflexivity |].
    apply (elem_of_tasks_done _ _ _ _ _ _ Hrun Hdone). eauto.
Qed.

(** *** The counters *)

(** What does hold of the counters: in a snapshot that a scrape returns, the
    success counter and the failure counter sum to the number of gauges of
    the loaded list, which is what [GAUGES_TOTAL] holds, since every
    collected future adds one to exactly one counter.  A scrape that does not
    return has no worker to create; it raises before a counter is
    published. *)
Lemma counters_sum_to_gauges_total (file : res yaml) (gauges : list gauge)
    (session_get : nat -> transport) (run_order done_order : list nat)
    (start_time end_time : float) (st : state) :
  read_gauges file = Ok gauges ->
  run_order ≡ₚ seq 0 (length gauges) ->
  done_order ≡ₚ seq 0 (length gauges) ->
  match metrics file session_get run_order done_order start_time end_time st with
  | (Ok snapshot, _) =>
      SCRAPE_SUCCESS snapshot + SCRAPE_FAILURE snapshot = GAUGES_TOTAL snapshot
      /\ GAUGES_TOTAL snapshot = Z.of_nat (length gauges)
  | (Raise _, _) => Z.min MAX_WORKERS (Z.of_nat (length gauges)) <= 0
  end.
Proof.
  intros Hread Hrun Hdone.
  destruct (Z_lt_le_dec 0 (Z.min MAX_WORKERS (Z.of_nat (length gauges)))) as [Hpool | Hpool].
  - rewrite (metrics_eq _ _ _ _ _ _ _ _ Hread Hpool).
    unfold snapshot_of; cbn.
    rewrite (tasks_done_length _ _ _ _ Hrun Hdone).
    pose proof (run_state_scrape_fields session_get gauges run_order st) as Hrs.
    injection Hrs as _ _ _ -> _. lia.
  - pose proof (metrics_no_worker file session_get run_order done_order
                  start_time end_time st) as Hraise.
    rewrite Hread in Hraise. specialize (Hraise Hpool).
    destruct (metrics file session_get run_order done_order start_time end_time st)
      as [[snapshot | e] st']; [discriminate | assumption].
Qed.

(** *** One sample per gauge *)

Lemma snapshot_streamflow (session_get : nat -> transport) (gauges : list gauge)
    (run_order done_order : list nat) (start_time end_time : float) (st : state) :
  USGS_STREAMFLOW (snapshot_of session_get gauges run_order done_order start_time end_time st)
  = samples (tasks_done gauges (futures_of session_get gauges run_order) done_order) ∅.
Proof.
  pose proof (run_state_scrape_fields session_get gauges run_order st) as Hrs.
  injection Hrs as Hm _ _ _ _. unfold snapshot_of; cbn. now rewrite Hm.
Qed.

Lemma snapshot_gauges_total (session_get : nat -> transport) (gauges : list gauge)
    (run_order done_order : list nat) (start_time end_time : float) (st : state) :
  GAUGES_TOTAL (snapshot_of session_get gauges run_order done_order start_time end_time st)
  = Z.of_nat (length gauges).
Proof.
  pose proof (run_state_scrape_fields session_get gauges run_order st) as Hrs.
  injection Hrs as _ _ _ Ht _. unfold snapshot_of; cbn. now rewrite Ht.
Qed.

(** C5, as the code has it.  For a non-empty gauge list and a pool of at
    least one worker the scrape returns a snapshot in which [GAUGES_TOTAL] is
    the length of the list and [USGS_STREAMFLOW] has exactly one sample for
    each distinct triple of labels (gauge id, friendly name, location name)
    of the list: no gauge is dropped, every sample is the reading fetched for
    a gauge with these labels, and when no triple repeats there are as many
    samples as gauges. *)
Theorem streamflow_one_sample_per_labels (file : res yaml) (gauges : list gauge)
    (session_get : nat -> transport) (run_order done_order : list nat)
    (start_time end_time : float) (st : state) :
  read_gauges file = Ok gauges ->
  gauges <> [] ->
  0 < MAX_WORKERS ->
  run_order ≡ₚ seq 0 (length gauges) ->
  done_order ≡ₚ seq 0 (length gauges) ->
  exists snapshot st',
    metrics file session_get run_order done_order start_time end_time st
    = (Ok snapshot, st')
    /\ GAUGES_TOTAL snapshot = Z.of_nat (length gauges)
    /\ dom (USGS_STREAMFLOW snapshot) = list_to_set (gauge_labels <$> gauges)
    /\ (forall k v, USGS_STREAMFLOW snapshot !! k = Some v ->
          exists i g, gauges !! i = Some g /\ gauge_labels g = k
                      /\ reading (session_get i) (id_of g) = Ok v)
    /\ (NoDup (gauge_labels <$> gauges) ->
          size (USGS_STREAMFLOW snapshot) = length gauges).
Proof.
  intros Hread Hne Hworkers Hrun Hdone.
  assert (0 < Z.min MAX_WORKERS (Z.of_nat (length gauges))) as Hpool
    by (destruct gauges; [congruence | cbn [length]; lia]).
  eexists _, _. split; [apply (metrics_eq _ _ _ _ _ _ _ _ Hread Hpool) |].
  rewrite snapshot_gauges_total, snapshot_streamflow.
  assert (dom (samples (tasks_done gauges (futures_of session_get gauges run_order)
                          done_order) ∅)
          = list_to_set (gauge_labels <$> gauges)) as Hdom.
  { rewrite samples_dom, dom_empty_L, (left_id_L ∅ (∪)).
    apply set_eq. intros k. rewrite !elem_of_list_to_set.
    apply (task_labels_done _ _ _ _ _ Hrun Hdone). }
  split; [reflexivity |]. split; [exact Hdom |]. split.
  - intros k v Hk. apply samples_lookup in Hk as [Hk | ([g outcome] & Hin & Hl & Hv)].
    + now rewrite lookup_empty in Hk.
    + apply (elem_of_tasks_done _ _ _ _ _ _ Hrun Hdone) in Hin as (i & Hg & ->).
      exists i, g. split; [assumption |]. split; [assumption |].
      destruct (reading_ok (session_get i) (id_of g)) as [v' Hv'].
      unfold task_value in Hv. simpl in Hv. rewrite Hv' in Hv |- *. now subst.
  - intros Hnodup. rewrite <- size_dom, Hdom, size_list_to_set by assumption.
    apply length_fmap.
Qed.

(** *** Two scrapes of the same list against the same upstream *)




(** ** Further properties of [load_gauges] *)

(** X1. [load_gauges] never raises.  It returns the whole list of the file,
    every entry a mapping with an ["id"] key, or the empty list; it never
    returns a part of the file's list, and it leaves every metric of the
    registry as it was. *)
Theorem load_gauges_whole_list_or_nothing (file : res yaml) (st : state) :
  exists gauges st',
    load_gauges file st = (Ok gauges, st')
    /\ Forall has_id gauges
    /\ (gauges = [] \/ file = gauge_file gauges)
    /\ scrape_fields st' = scrape_fields st
    /\ rate_limit_fields st' = rate_limit_fields st.
Proof.
  rewrite load_gauges_eq. destruct (read_gauges file) as [gauges | e] eqn:Hread.
  - exists gauges, st. split; [reflexivity |].
    split; [now apply (read_gauges_has_id file) |].
    split; [| easy].
    right. unfold read_gauges in Hread.
    destruct file as [doc | e]; simpl in Hread; try discriminate.
    destruct doc; try discriminate.
    apply check_entries_ok in Hread as [-> _]. reflexivity.
  - eexists [], _. split; [reflexivity |].
    split; [constructor |]. split; [now left | easy].
Qed.

(** X2. A file that is a list of mappings, each with an ["id"] key, is
    returned as it is: nothing is printed and the registry is not touched.
    Only the presence of the key is checked, not the value under it. *)
Theorem load_gauges_accepts_well_formed (gauges : list gauge) (st : state) :
  Forall has_id gauges ->
  load_gauges (gauge_file gauges) st = (Ok gauges, st).
Proof.
  intros Hids. now rewrite load_gauges_eq, (read_gauge_file gauges Hids).
Qed.

(** ** Further properties of the parsing of a response body *)

(** X3. Only the first feature of a body is read: two bodies whose feature
    lists start with the same feature give the same reading or raise the same
    exception, whatever follows in the list and whatever else the bodies
    hold. *)
Theorem parse_reading_first_feature_only (d d' : list (string * json))
    (first : json) (rest rest' : list json) :
  dict_get "features" d = Some (JList (first :: rest)) ->
  dict_get "features" d' = Some (JList (first :: rest')) ->
  parse_reading (Some (JDict d)) = parse_reading (Some (JDict d')).
Proof.
  intros Hd Hd'. unfold parse_reading; simpl. now rewrite Hd, Hd'.
Qed.

(** X4. A first feature whose properties have no ["value"], or have the
    value [null], is not read as not-available: [float(None)] raises a
    [TypeError]. *)
Theorem parse_reading_without_value (d first props : list (string * json))
    (rest : list json) :
  dict_get "features" d = Some (JList (JDict first :: rest)) ->
  dict_get "properties" first = Some (JDict props) ->
  dict_get "value" props = None \/ dict_get "value" props = Some JNull ->
  parse_reading (Some (JDict d)) = Raise TypeError.
Proof.
  intros Hf Hp Hv. unfold parse_reading; simpl. rewrite Hf; simpl.
  unfold dict_index. rewrite Hp; simpl.
  now destruct Hv as [-> | ->].
Qed.

(** X5. A body that is a JSON object without a ["features"] key, or whose
    ["features"] is empty or otherwise false for Python ([null], 0, an empty
    string or object), reads as not-available and raises nothing. *)
Theorem parse_reading_no_features (d : list (string * json)) :
  py_truthy (default (JList []) (dict_get "features" d)) = false ->
  parse_reading (Some (JDict d)) = Ok nan.
Proof.
  intros Hfalse. unfold parse_reading; simpl.
  destruct (dict_get "features" d) as [features |]; simpl in Hfalse |- *;
    now rewrite ?Hfalse.
Qed.

(** X6. A value given as a JSON string goes through [float]: the reading is
    the float the string denotes, and a string that denotes none raises a
    [ValueError]. *)
Theorem parse_reading_string_value (d first props : list (string * json))
    (rest : list json) (s : string) :
  dict_get "features" d = Some (JList (JDict first :: rest)) ->
  dict_get "properties" first = Some (JDict props) ->
  dict_get "value" props = Some (JStr s) ->
  parse_reading (Some (JDict d))
  = match py_float_of_str s with
    | Some f => Ok f
    | None => Raise ValueError
    end.
Proof.
  intros Hf Hp Hv. unfold parse_reading; simpl. rewrite Hf; simpl.
  unfold dict_index. rewrite Hp; simpl. now rewrite Hv.
Qed.

(** ** Further properties of [fetch_usgs_gauge] *)

(** X7. A reading from the primary credential ends the call: the backup is
    not asked, so the result and the registry are the same whatever the
    upstream would have answered to the backup.  This holds also when the
    reading is not-available because the primary's response had no feature. *)
Theorem primary_reading_ends_the_call (session_get session_get' : transport)
    (gauge_id : yaml) (v : float) (st st1 : state) :
  attempt session_get gauge_id "primary" API_KEY_PRIMARY st = (Ok v, st1) ->
  (forall rq, session_get' "primary" rq = session_get "primary" rq) ->
  fetch_usgs_gauge session_get' gauge_id st = (Ok v, st1).
Proof.
  intros Hread Hsame. unfold fetch_usgs_gauge. rewrite fetch_with_keys_cons.
  assert (attempt session_get' gauge_id "primary" API_KEY_PRIMARY st
          = attempt session_get gauge_id "primary" API_KEY_PRIMARY st) as ->
    by (unfold attempt; now rewrite Hsame).
  now rewrite Hread.
Qed.

(** X8. When both credentials are refused with HTTP 429 the call returns
    not-available and leaves no trace: nothing is printed and the registry,
    rate-limit metrics included, is as it was. *)
Theorem exhausted_quota_is_silent (session_get : transport) (gauge_id : yaml)
    (r1 r2 : response) (st : state) :
  session_get "primary" (build_request gauge_id API_KEY_PRIMARY) = GetReturns r1 ->
  status_code r1 = 429 ->
  session_get "backup" (build_request gauge_id API_KEY_BACKUP) = GetReturns r2 ->
  status_code r2 = 429 ->
  fetch_usgs_gauge session_get gauge_id st = (Ok nan, st).
Proof.
  intros H1 Hs1 H2 Hs2. unfold fetch_usgs_gauge.
  rewrite fetch_with_keys_cons.
  rewrite (attempt_refused _ _ _ _ r1 (HTTPError 429) st H1)
    by (unfold raise_for_status; now rewrite Hs1).
  change (warned gauge_id "primary" (HTTPError 429) st) with st.
  rewrite fetch_with_keys_cons.
  rewrite (attempt_refused _ _ _ _ r2 (HTTPError 429) st H2)
    by (unfold raise_for_status; now rewrite Hs2).
  reflexivity.
Qed.

(** X9. The rate-limit observation of a response does not wait for its
    body: when both headers are present and hold integers, and these and
    their difference have a double ([float] does not overflow), the doubles
    of the remaining quota, of the limit and of limit - remaining are
    recorded for the credential, and the attempt then ends with whatever the
    parsing of the body gives, a reading or an exception. *)
Theorem observation_recorded_before_body (session_get : transport) (gauge_id : yaml)
    (key_label : string) (api_key : option string) (r : response)
    (s_rem s_lim : string) (remaining limit : Z) (st : state) :
  session_get key_label (build_request gauge_id api_key) = GetReturns r ->
  raise_for_status r = Ok tt ->
  headers_get "X-RateLimit-Remaining" (headers r) = Some s_rem ->
  headers_get "X-RateLimit-Limit" (headers r) = Some s_lim ->
  py_int_of_str s_rem = Ok remaining ->
  py_int_of_str s_lim = Ok limit ->
  float_overflows remaining = false ->
  float_overflows limit = false ->
  float_overflows (limit - remaining) = false ->
  attempt session_get gauge_id key_label api_key st
  = (parse_reading (body r), observed key_label remaining limit st).
Proof.
  intros Hget Hstatus Hr Hl Hpr Hpl Hor Hol Hou.
  unfold attempt. unfold bind at 1, lift at 1. rewrite Hget.
  unfold bind at 1, lift at 1. rewrite Hstatus.
  unfold bind at 1.
  rewrite (update_rate_limits_observed _ _ _ _ _ _ _ Hr Hl Hpr Hpl Hor Hol Hou).
  reflexivity.
Qed.

(** X10. A remaining-quota header that is present but is not an integer is
    not without effect: lines 109 to 126 end in an exception (the reading of
    this response is lost), and the credential has a sample of
    [USGS_API_RATELIMIT_REMAINING] afterwards, its earlier value or 0 when it
    had none, because [labels] creates the sample before [int] raises.  The
    used-requests metric is not written. *)
Theorem unparseable_remaining_leaves_a_sample (key_label : string) (r : response)
    (s : string) (st : state) :
  headers_get "X-RateLimit-Remaining" (headers r) = Some s ->
  py_int_of_str s = Raise ValueError ->
  exists e st',
    update_rate_limits key_label r st = (Raise e, st')
    /\ USGS_API_RATELIMIT_REMAINING st' !! key_label
       = Some (default zero (USGS_API_RATELIMIT_REMAINING st !! key_label))
    /\ USGS_API_REQUESTS_PER_HOUR st' = USGS_API_REQUESTS_PER_HOUR st.
Proof.
  intros Hr Hbad.
  assert (labels key_label (USGS_API_RATELIMIT_REMAINING st) !! key_label
          = Some (default zero (USGS_API_RATELIMIT_REMAINING st !! key_label))) as Hlab.
  { unfold labels.
    destruct (USGS_API_RATELIMIT_REMAINING st !! key_label) as [n |] eqn:Hold;
      [exact Hold | apply lookup_insert_eq]. }
  unfold update_rate_limits. rewrite Hr.
  unfold bind at 1. unfold try_except at 1.
  unfold bind at 1, modify at 1. unfold bind at 1, lift at 1.
  rewrite Hbad. cbn [pass_ValueError is_ValueError ret].
  destruct (headers_get "X-RateLimit-Limit" (headers r)) as [s_lim |].
  - unfold bind at 1. unfold try_except at 1.
    unfold bind at 1, modify at 1. unfold bind at 1, lift at 1.
    destruct (py_int_of_str s_lim) as [limit | e] eqn:Hlim.
    + unfold bind at 1, lift at 1, check_sample.
      destruct (float_overflows limit).
      * cbn. eexists _, _. split; [reflexivity |]. now split.
      * unfold modify at 1. unfold bind at 1, lift at 1, py_int.
        rewrite Hlim. unfold bind at 1, lift at 1. rewrite Hbad.
        eexists _, _. split; [reflexivity |]. now split.
    + unfold pass_ValueError. destruct (is_ValueError e).
      * unfold ret at 1. unfold bind at 1, lift at 1, py_int. rewrite Hlim.
        eexists _, _. split; [reflexivity |]. now split.
      * cbn. eexists _, _. split; [reflexivity |]. now split.
  - unfold bind at 1, ret at 1. unfold bind at 1, lift at 1, py_int.
    eexists _, _. split; [reflexivity |]. now split.
Qed.

(** X11. A call writes only the rate-limit metrics and the standard output:
    the readings, the two counters, the gauge count and the duration of the
    registry are the same after the call as before. *)
Theorem fetch_leaves_scrape_metrics (session_get : transport) (gauge_id : yaml)
    (st : state) :
  scrape_fields (snd (fetch_usgs_gauge session_get gauge_id st)) = scrape_fields st.
Proof. apply preserves_fetch_usgs_gauge. Qed.

(** X12. What a call returns is decided by the upstream's answers alone: from
    any two registries, the same answers give the same reading. *)
Theorem fetch_reading_ignores_registry (session_get : transport) (gauge_id : yaml)
    (st st' : state) :
  fst (fetch_usgs_gauge session_get gauge_id st)
  = fst (fetch_usgs_gauge session_get gauge_id st').
Proof. apply oblivious_fetch_with_keys. Qed.

(** *** What a call prints *)

Lemma quiet_ret {A : Type} (a : A) : quiet (ret a).
Proof. now intros st. Qed.

Lemma quiet_raise {A : Type} (e : exn) : quiet (@raise A e).
Proof. now intros st. Qed.

Lemma quiet_lift {A : Type} (r : res A) : quiet (lift r).
Proof. now intros st. Qed.

Lemma quiet_with_remaining (f : gmap string float -> gmap string float) :
  quiet (modify (with_remaining f)).
Proof. now intros st. Qed.

Lemma quiet_with_limit (f : gmap string float -> gmap string float) :
  quiet (modify (with_limit f)).
Proof. now intros st. Qed.

Lemma quiet_with_used (f : gmap string float -> gmap string float) :
  quiet (modify (with_used f)).
Proof. now intros st. Qed.

Lemma quiet_bind {A B : Type} (m : M A) (k : A -> M B) :
  quiet m -> (forall a, quiet (k a)) -> quiet (bind m k).
Proof.
  intros Hm Hk st. unfold bind. specialize (Hm st).
  destruct (m st) as [[a | e] s1]; simpl in Hm.
  - now rewrite Hk.
  - assumption.
Qed.

Lemma quiet_try_except {A : Type} (m : M A) (h : exn -> M A) :
  quiet m -> (forall e, quiet (h e)) -> quiet (try_except m h).
Proof.
  intros Hm Hh st. unfold try_except. specialize (Hm st).
  destruct (m st) as [[a | e] s1]; simpl in Hm.
  - assumption.
  - now rewrite Hh.
Qed.

Create HintDb quiet.
#[local] Hint Resolve quiet_ret quiet_raise quiet_lift quiet_with_remaining
  quiet_with_limit quiet_with_used : quiet.

Ltac quiet_step :=
  first [ apply quiet_bind; [| intros ?]
        | apply quiet_try_except; [| intros ?]
        | solve [auto with quiet] ].

Lemma quiet_pass_ValueError (e : exn) : quiet (pass_ValueError e).
Proof. unfold pass_ValueError. destruct (is_ValueError e); auto with quiet. Qed.

Lemma quiet_update_rate_limits (key_label : string) (r : response) :
  quiet (update_rate_limits key_label r).
Proof.
  unfold update_rate_limits.
  destruct (headers_get "X-RateLimit-Remaining" (headers r));
    destruct (headers_get "X-RateLimit-Limit" (headers r));
    repeat first [ apply quiet_pass_ValueError | quiet_step ].
Qed.

Lemma quiet_attempt (session_get : transport) (gauge_id : yaml)
    (key_label : string) (api_key : option string) :
  quiet (attempt session_get gauge_id key_label api_key).
Proof.
  unfold attempt.
  repeat first [ apply quiet_update_rate_limits | quiet_step ].
Qed.

Lemma warned_stdout (gauge_id : yaml) (key_label : string) (e : exn) (st : state) :
  exists ws, stdout (warned gauge_id key_label e st) = stdout st ++ ws
             /\ (length ws <= 1)%nat
             /\ Forall (warning_of (py_str gauge_id) key_label) ws.
Proof.
  unfold warned.
  assert (forall l, warning_of (py_str gauge_id) key_label l ->
            exists ws, stdout (with_stdout (fun out => out ++ [l]) st) = stdout st ++ ws
                       /\ (length ws <= 1)%nat
                       /\ Forall (warning_of (py_str gauge_id) key_label) ws) as Hone.
  { intros l Hl. exists [l]. split; [reflexivity |]. split; [simpl; lia |].
    now repeat constructor. }
  destruct e as [| | | | | | | | | code |];
    try (apply Hone; split; reflexivity).
  destruct (code =? 429).
  - exists []. split; [now rewrite app_nil_r |]. split; [simpl; lia | constructor].
  - apply Hone. split; reflexivity.
Qed.

(** X13. A call only adds to the standard output, and at most one line for
    each credential: what it adds is at most one warning that names this
    gauge and the primary credential, followed by at most one warning that
    names this gauge and the backup credential. *)
Theorem fetch_prints_at_most_two_warnings (session_get : transport) (gauge_id : yaml)
    (st : state) :
  exists ws1 ws2,
    stdout (snd (fetch_usgs_gauge session_get gauge_id st)) = stdout st ++ ws1 ++ ws2
    /\ (length ws1 <= 1)%nat
    /\ (length ws2 <= 1)%nat
    /\ Forall (warning_of (py_str gauge_id) "primary") ws1
    /\ Forall (warning_of (py_str gauge_id) "backup") ws2.
Proof.
  unfold fetch_usgs_gauge. rewrite fetch_with_keys_cons.
  pose proof (quiet_attempt session_get gauge_id "primary" API_KEY_PRIMARY st) as Hq1.
  destruct (attempt session_get gauge_id "primary" API_KEY_PRIMARY st) as [[v1 | e1] st1];
    simpl in Hq1.
  - exists [], []. rewrite !app_nil_r. split; [exact Hq1 |].
    repeat split; (simpl; lia) || constructor.
  - destruct (warned_stdout gauge_id "primary" e1 st1) as (ws1 & Hw1 & Hlen1 & Hall1).
    rewrite fetch_with_keys_cons.
    pose proof (quiet_attempt session_get gauge_id "backup" API_KEY_BACKUP
                  (warned gauge_id "primary" e1 st1)) as Hq2.
    destruct (attempt session_get gauge_id "backup" API_KEY_BACKUP _) as [[v2 | e2] st2];
      simpl in Hq2.
    + exists ws1, []. simpl. rewrite Hq2, Hw1, Hq1, app_nil_r.
      split; [reflexivity |]. repeat split; try assumption; (simpl; lia) || constructor.
    + destruct (warned_stdout gauge_id "backup" e2 st2) as (ws2 & Hw2 & Hlen2 & Hall2).
      exists ws1, ws2. simpl. rewrite Hw2, Hq2, Hw1, Hq1, app_assoc.
      split; [reflexivity |]. now repeat split.
Qed.

(** ** Further properties of [metrics] *)

(** X14. Every snapshot a scrape returns reports as many successes as there
    are gauges and no failure, whatever the upstream answered, and its
    duration is the difference of the two clock readings: a future never
    raises, and line 166 takes every value it holds for a success. *)
Theorem returned_snapshot_counts (file : res yaml) (gauges : list gauge)
    (session_get : nat -> transport) (run_order done_order : list nat)
    (start_time end_time : float) (st : state) :
  read_gauges file = Ok gauges ->
  0 < Z.min MAX_WORKERS (Z.of_nat (length gauges)) ->
  run_order ≡ₚ seq 0 (length gauges) ->
  done_order ≡ₚ seq 0 (length gauges) ->
  exists snapshot,
    metrics file session_get run_order done_order start_time end_time st
    = (Ok snapshot, snapshot)
    /\ SCRAPE_SUCCESS snapshot = Z.of_nat (length gauges)
    /\ SCRAPE_FAILURE snapshot = 0
    /\ SCRAPE_DURATION snapshot = PrimFloat.sub end_time start_time.
Proof.
  intros Hread Hpool Hrun Hdone.
  eexists. split; [apply (metrics_eq _ _ _ _ _ _ _ _ Hread Hpool) |].
  unfold snapshot_of; cbn.
  now rewrite (tasks_done_length _ _ _ _ Hrun Hdone).
Qed.

Lemma lookup_labels_NoDup (gauges : list gauge) (i j : nat) (g g' : gauge) :
  NoDup (gauge_labels <$> gauges) ->
  gauges !! i = Some g -> gauges !! j = Some g' ->
  gauge_labels g = gauge_labels g' -> i = j.
Proof.
  intros Hnodup Hi Hj Hl.
  apply (NoDup_lookup (gauge_labels <$> gauges) i j (gauge_labels g) Hnodup).
  - now rewrite list_lookup_fmap, Hi.
  - now rewrite list_lookup_fmap, Hj, Hl.
Qed.

(** X15. When no two gauges of the list have the same labels, the sample
    published for a gauge is the reading of that gauge's own task: what the
    upstream answers for one gauge never shows under another, whatever the
    order in which the tasks run and are collected. *)
Theorem each_gauge_gets_its_own_reading (file : res yaml) (gauges : list gauge)
    (session_get : nat -> transport) (run_order done_order : list nat)
    (start_time end_time : float) (st : state) :
  read_gauges file = Ok gauges ->
  0 < Z.min MAX_WORKERS (Z.of_nat (length gauges)) ->
  run_order ≡ₚ seq 0 (length gauges) ->
  done_order ≡ₚ seq 0 (length gauges) ->
  NoDup (gauge_labels <$> gauges) ->
  exists snapshot,
    fst (metrics file session_get run_order done_order start_time end_time st)
    = Ok snapshot
    /\ forall i g, gauges !! i = Some g ->
         exists v, reading (session_get i) (id_of g) = Ok v
                   /\ USGS_STREAMFLOW snapshot !! gauge_labels g = Some v.
Proof.
  intros Hread Hpool Hrun Hdone Hnodup.
  eexists. split; [now rewrite (metrics_eq _ _ _ _ _ _ _ _ Hread Hpool) |].
  intros i g Hg. rewrite snapshot_streamflow.
  set (tasks := tasks_done gauges (futures_of session_get gauges run_order) done_order).
  assert (is_Some (samples tasks ∅ !! gauge_labels g)) as [v Hv].
  { apply elem_of_dom. rewrite samples_dom, dom_empty_L, (left_id_L ∅ (∪)).
    apply elem_of_list_to_set, (task_labels_done _ _ _ _ _ Hrun Hdone).
    apply list_elem_of_fmap. exists g.
    split; [reflexivity | now apply list_elem_of_lookup_2 in Hg]. }
  exists v. split; [| exact Hv].
  apply samples_lookup in Hv as [Hv | ([g' outcome] & Hin & Hl & Hval)].
  - now rewrite lookup_empty in Hv.
  - apply (elem_of_tasks_done _ _ _ _ _ _ Hrun Hdone) in Hin as (j & Hg' & ->).
    unfold task_labels in Hl; simpl in Hl.
    assert (j = i) as -> by (now apply (lookup_labels_NoDup gauges j i g' g)).
    assert (g' = g) as -> by congruence.
    destruct (reading_ok (session_get i) (id_of g)) as [v' Hv'].
    unfold task_value in Hval; simpl in Hval. rewrite Hv' in Hval |- *. now subst.
Qed.

(** X16. A scrape that finds no worker to create, because the loaded list is
    empty or [MAX_WORKERS] is not positive, raises [ValueError] after it has
    written the gauge count and cleared the readings: the registry it leaves
    holds the new gauge count and no reading, next to the counters, the
    duration and the rate-limit observations of the scrape before. *)
Theorem scrape_without_worker (file : res yaml) (gauges : list gauge)
    (session_get : nat -> transport) (run_order done_order : list nat)
    (start_time end_time : float) (st : state) :
  fst (load_gauges file st) = Ok gauges ->
  Z.min MAX_WORKERS (Z.of_nat (length gauges)) <= 0 ->
  exists st',
    metrics file session_get run_order done_order start_time end_time st
    = (Raise ValueError, st')
    /\ GAUGES_TOTAL st' = Z.of_nat (length gauges)
    /\ USGS_STREAMFLOW st' = ∅
    /\ SCRAPE_SUCCESS st' = SCRAPE_SUCCESS st
    /\ SCRAPE_FAILURE st' = SCRAPE_FAILURE st
    /\ SCRAPE_DURATION st' = SCRAPE_DURATION st
    /\ rate_limit_fields st' = rate_limit_fields st.
Proof.
  intros Hload Hpool. unfold metrics. unfold bind at 1.
  destruct (load_gauges file st) as [r st0] eqn:Hl. simpl in Hload. subst r.
  assert (scrape_fields st0 = scrape_fields st
          /\ rate_limit_fields st0 = rate_limit_fields st) as [Hs Hr].
  { rewrite load_gauges_eq in Hl.
    destruct (read_gauges file); injection Hl as _ <-; now split. }
  unfold bind at 1, modify at 1. unfold bind at 1, modify at 1.
  unfold bind at 1, lift at 1, ThreadPoolExecutor.
  apply Z.leb_le in Hpool. rewrite Hpool.
  eexists. split; [reflexivity |]. cbn.
  injection Hs as _ -> -> _ ->. now rewrite <- Hr.
Qed.

(** *** An upstream that answers no request *)

Lemma attempt_refused_any (session_get : transport) (gauge_id : yaml)
    (key_label : string) (api_key : option string) (st : state) :
  refused (session_get key_label (build_request gauge_id api_key)) ->
  exists e, attempt session_get gauge_id key_label api_key st = (Raise e, st).
Proof.
  intros Href. unfold attempt, bind, lift.
  destruct (session_get key_label (build_request gauge_id api_key)) as [e | r].
  - now eexists.
  - destruct Href as [e He]. rewrite He. now eexists.
Qed.

Lemma warned_rate_limit_fields (gauge_id : yaml) (key_label : string) (e : exn)
    (st : state) :
  rate_limit_fields (warned gauge_id key_label e st) = rate_limit_fields st.
Proof.
  unfold warned. destruct e as [| | | | | | | | | code |]; try reflexivity.
  now destruct (code =? 429).
Qed.

Lemma fetch_refused (session_get : transport) (gauge_id : yaml) (st : state) :
  (forall key_label rq, refused (session_get key_label rq)) ->
  fst (fetch_usgs_gauge session_get gauge_id st) = Ok nan
  /\ rate_limit_fields (snd (fetch_usgs_gauge session_get gauge_id st))
     = rate_limit_fields st.
Proof.
  intros Href. unfold fetch_usgs_gauge. rewrite fetch_with_keys_cons.
  destruct (attempt_refused_any session_get gauge_id "primary" API_KEY_PRIMARY st
              (Href _ _)) as [e1 ->].
  rewrite fetch_with_keys_cons.
  destruct (attempt_refused_any session_get gauge_id "backup" API_KEY_BACKUP
              (warned gauge_id "primary" e1 st) (Href _ _)) as [e2 ->].
  split; [reflexivity |]. simpl. now rewrite !warned_rate_limit_fields.
Qed.

Lemma run_tasks_refused (session_get : nat -> transport) (ids : list yaml)
    (run_order : list nat) (futures : gmap nat (res float)) (st : state) :
  (forall i key_label rq, refused (session_get i key_label rq)) ->
  rate_limit_fields (snd (run_tasks session_get ids run_order futures st))
  = rate_limit_fields st.
Proof.
  intros Href. revert futures st.
  induction run_order as [| i rest IH]; intros futures st; [reflexivity |].
  cbn [run_tasks]. unfold bind at 1, run_task.
  destruct (ids !! i) as [gauge_id |]; [| apply IH].
  destruct (fetch_refused (session_get i) gauge_id st (Href i)) as [_ Hrate].
  destruct (fetch_usgs_gauge (session_get i) gauge_id st) as [outcome st'].
  simpl in Hrate. now rewrite IH.
Qed.

(** X17. When the upstream answers no request (every call raises or gets an
    error status) the scrape still returns: every sample is not-available,
    and the rate-limit metrics of the snapshot are those the registry held
    before the scrape, since no scrape clears them. *)
Theorem scrape_with_upstream_down (file : res yaml) (gauges : list gauge)
    (session_get : nat -> transport) (run_order done_order : list nat)
    (start_time end_time : float) (st : state) :
  read_gauges file = Ok gauges ->
  0 < Z.min MAX_WORKERS (Z.of_nat (length gauges)) ->
  run_order ≡ₚ seq 0 (length gauges) ->
  done_order ≡ₚ seq 0 (length gauges) ->
  (forall i key_label rq, refused (session_get i key_label rq)) ->
  exists snapshot,
    fst (metrics file session_get run_order done_order start_time end_time st)
    = Ok snapshot
    /\ rate_limit_fields snapshot = rate_limit_fields st
    /\ forall g, g ∈ gauges ->
         USGS_STREAMFLOW snapshot !! gauge_labels g = Some nan.
Proof.
  intros Hread Hpool Hrun Hdone Href.
  eexists. split; [now rewrite (metrics_eq _ _ _ _ _ _ _ _ Hread Hpool) |]. split.
  - unfold snapshot_of, run_state.
    change (rate_limit_fields
              (snd (run_tasks session_get (id_of <$> gauges) run_order ∅
                      (with_streamflow (fun _ => ∅)
                         (with_gauges_total (Z.of_nat (length gauges)) st))))
            = rate_limit_fields st).
    now rewrite (run_tasks_refused session_get _ run_order ∅ _ Href).
  - intros g Hg. rewrite snapshot_streamflow.
    rewrite (samples_lookup_by_labels (fun _ => nan)).
    + rewrite decide_True; [reflexivity |].
      apply (task_labels_done _ _ _ _ _ Hrun Hdone).
      now apply list_elem_of_fmap_2.
    + intros [g' outcome] Hin.
      apply (elem_of_tasks_done _ _ _ _ _ _ Hrun Hdone) in Hin as (i & _ & ->).
      unfold task_value, reading; simpl.
      now destruct (fetch_refused (session_get i) (id_of g') initial_state (Href i))
        as [-> _].
Qed.

(** *** When a scrape raises *)

(** X18. A scrape raises in one case only: when there is no worker to
    create, and the exception is then the [ValueError] of
    [ThreadPoolExecutor].  No answer of the upstream, no body and no entry of
    a loaded gauge list makes [metrics] raise, whatever the order in which
    tasks run and are collected. *)
Theorem metrics_raises_only_without_worker (file : res yaml)
    (session_get : nat -> transport) (run_order done_order : list nat)
    (start_time end_time : float) (st : state) :
  match fst (metrics file session_get run_order done_order start_time end_time st),
        read_gauges file with
  | Ok _, Ok gauges => 0 < Z.min MAX_WORKERS (Z.of_nat (length gauges))
  | Ok _, Raise _ => False
  | Raise e, Ok gauges =>
      e = ValueError /\ Z.min MAX_WORKERS (Z.of_nat (length gauges)) <= 0
  | Raise e, Raise _ => e = ValueError
  end.
Proof.
  destruct (read_gauges file) as [gauges | e] eqn:Hread.
  - destruct (Z_lt_le_dec 0 (Z.min MAX_WORKERS (Z.of_nat (length gauges))))
      as [Hpool | Hpool].
    + now rewrite (metrics_eq _ _ _ _ _ _ _ _ Hread Hpool).
    + pose proof (metrics_no_worker file session_get run_order done_order
                    start_time end_time st) as Hraise.
      rewrite Hread in Hraise. now rewrite (Hraise Hpool).
  - pose proof (metrics_no_worker file session_get run_order done_order
                  start_time end_time st) as Hraise.
    rewrite Hread in Hraise. rewrite Hraise; [reflexivity | simpl; lia].
Qed.

(** X19. A malformed gauge file does not give a snapshot of zero gauges: the
    list is rejected, the error is printed, and the scrape then raises
    [ValueError] for want of a worker. *)
Theorem malformed_file_fails_the_scrape (doc : yaml)
    (session_get : nat -> transport) (run_order done_order : list nat)
    (start_time end_time : float) (st : state) :
  malformed doc ->
  exists st',
    metrics (Ok doc) session_get run_order done_order start_time end_time st
    = (Raise ValueError, st')
    /\ stdout st' = stdout st ++ [ErrorLoadingGauges ValueError]
    /\ GAUGES_TOTAL st' = 0.
Proof.
  intros Hbad.
  assert (read_gauges (Ok doc) = Raise ValueError) as Hread.
  { unfold read_gauges; simpl. destruct doc; try reflexivity.
    destruct Hbad as (g & Hin & Hg). now apply (check_entries_malformed l g). }
  unfold metrics. unfold bind at 1. rewrite load_gauges_eq, Hread.
  unfold bind at 1, modify at 1. unfold bind at 1, modify at 1.
  unfold bind at 1, lift at 1, ThreadPoolExecutor.
  assert ((Z.min MAX_WORKERS (Z.of_nat (length (@nil gauge))) <=? 0) = true) as ->
    by (apply Z.leb_le; simpl; lia).
  eexists. split; [reflexivity |]. now split.
Qed.

End Exporter.

(** ** The exporter under a sample configuration *)

Abbreviation metrics_with workers :=
  (metrics sample_repr sample_float_of_str workers (Some "key-1") (Some "key-2")).

Abbreviation fetch_with_sample_keys :=
  (fetch_usgs_gauge sample_repr sample_float_of_str (Some "key-1") (Some "key-2")).

(** *** Success and failure of a gauge *)

(** C2, at the input where the code leaves the claim.  One gauge, both
    credentials refused with 429: [fetch_usgs_gauge] yields not-available,
    and the scrape counts the gauge as a success and no failure, because
    [val != float("nan")] on line 166 holds for every float ([ne_nan]). *)
Theorem exhausted_credentials_counted_as_success
    (start_time end_time : float) (st : state) :
  fst (fetch_with_sample_keys upstream_exhausted (YStr "09380000") st) = Ok nan
  /\ exists snapshot,
       fst (metrics_with 10 (gauge_file [lees_ferry]) (fun _ => upstream_exhausted)
              [0%nat] [0%nat] start_time end_time st) = Ok snapshot
       /\ SCRAPE_SUCCESS snapshot = 1
       /\ SCRAPE_FAILURE snapshot = 0
       /\ USGS_STREAMFLOW snapshot
            !! ("09380000", "Colorado River at Lees Ferry", "Colorado River at Lees Ferry")
          = Some nan.
Proof.
  split; [reflexivity |].
  eexists. split; [vm_compute; reflexivity |].
  repeat split; reflexivity.
Qed.

(** *** The counters after a scrape that raised *)

(** C10, at the input where the code leaves the claim.  A scrape of one
    gauge is followed by a scrape that loads the empty list (an empty file
    list, or a malformed file).  The second scrape writes [GAUGES_TOTAL] on
    line 150, raises on line 156 and never reaches lines 181 and 182: the
    registry it leaves has a success counter and a failure counter that sum
    to 1 next to a gauge count of 0. *)
Theorem counters_outlive_an_empty_scrape
    (start_time end_time start_time' end_time' : float) :
  let first := metrics_with 10 (gauge_file [lees_ferry]) (fun _ => upstream_failover)
                 [0%nat] [0%nat] start_time end_time initial_state in
  let second := metrics_with 10 (gauge_file []) (fun _ => upstream_failover)
                  [] [] start_time' end_time' (snd first) in
  let second' := metrics_with 10 (Ok (YList [YStr "09380000"]))
                   (fun _ => upstream_failover)
                   [] [] start_time' end_time' (snd first) in
  (exists snapshot,
     fst first = Ok snapshot
     /\ SCRAPE_SUCCESS snapshot + SCRAPE_FAILURE snapshot = 1
     /\ GAUGES_TOTAL snapshot = 1)
  /\ (fst second = Raise ValueError
      /\ SCRAPE_SUCCESS (snd second) + SCRAPE_FAILURE (snd second) = 1
      /\ GAUGES_TOTAL (snd second) = 0)
  /\ (fst second' = Raise ValueError
      /\ SCRAPE_SUCCESS (snd second') + SCRAPE_FAILURE (snd second') = 1
      /\ GAUGES_TOTAL (snd second') = 0).
Proof.
  cbv zeta. split.
  - eexists. split; [vm_compute; reflexivity |]. split; reflexivity.
  - split; (split; [vm_compute; reflexivity |]);
      split; vm_compute; reflexivity.
Qed.

(** *** Two scrapes *)


(** ** The statements at sample inputs *)

(** A gauge file whose second entry is a bare station number, not a
    mapping, is rejected as a whole. *)
Lemma load_gauges_rejects_malformed_witness :
  malformed (YList [YDict lees_ferry; YStr "09180500"])
  /\ load_gauges (Ok (YList [YDict lees_ferry; YStr "09180500"])) initial_state
     = (Ok [], with_stdout (fun out => out ++ [ErrorLoadingGauges ValueError])
                 initial_state).
Proof.
  assert (malformed (YList [YDict lees_ferry; YStr "09180500"])) as Hbad.
  { exists (YStr "09180500").
    split; [apply list_elem_of_further, list_elem_of_here | reflexivity]. }
  split; [exact Hbad | exact (load_gauges_rejects_malformed _ initial_state Hbad)].
Defined.

(** The examples of the specification: 42.5 as a plain number and as a
    nested structure with qualifiers, a nested structure without [value],
    and an empty feature list. *)
Lemma parse_reading_spec_witness :
  (spec_reading body_42_5 42.5
   /\ parse_reading sample_float_of_str (Some body_42_5) = Ok 42.5%float)
  /\ (spec_reading body_nested_42_5 42.5
      /\ parse_reading sample_float_of_str (Some body_nested_42_5) = Ok 42.5%float)
  /\ (spec_reading body_nested_missing nan
      /\ parse_reading sample_float_of_str (Some body_nested_missing) = Ok nan)
  /\ (spec_reading body_no_features nan
      /\ parse_reading sample_float_of_str (Some body_no_features) = Ok nan).
Proof.
  assert (spec_reading body_42_5 42.5) as H1
    by (eapply reading_plain; reflexivity).
  assert (spec_reading body_nested_42_5 42.5) as H2
    by (eapply reading_nested; reflexivity).
  assert (spec_reading body_nested_missing nan) as H3
    by (eapply reading_nested_missing; reflexivity).
  assert (spec_reading body_no_features nan) as H4
    by (eapply reading_no_feature; reflexivity).
  exact (conj (conj H1 (parse_reading_spec sample_float_of_str _ _ H1))
           (conj (conj H2 (parse_reading_spec sample_float_of_str _ _ H2))
              (conj (conj H3 (parse_reading_spec sample_float_of_str _ _ H3))
                 (conj H4 (parse_reading_spec sample_float_of_str _ _ H4))))).
Defined.

Lemma two_tasks_swapped : [1; 0]%nat ≡ₚ seq 0 2.
Proof. apply perm_swap. Defined.

Lemma two_tasks_in_order : [0; 1]%nat ≡ₚ seq 0 2.
Proof. reflexivity. Defined.

(** Two gauges, the second task running first: the counters sum to 2. *)
Lemma counters_sum_to_gauges_total_witness :
  read_gauges (gauge_file [lees_ferry; cisco]) = Ok [lees_ferry; cisco]
  /\ [1; 0]%nat ≡ₚ seq 0 2
  /\ [0; 1]%nat ≡ₚ seq 0 2
  /\ match metrics_with 10 (gauge_file [lees_ferry; cisco]) (fun _ => upstream_failover)
             [1; 0]%nat [0; 1]%nat 0%float 1%float initial_state with
     | (Ok snapshot, _) =>
         SCRAPE_SUCCESS snapshot + SCRAPE_FAILURE snapshot = GAUGES_TOTAL snapshot
         /\ GAUGES_TOTAL snapshot = 2
     | (Raise _, _) => Z.min 10 2 <= 0
     end.
Proof.
  split; [reflexivity |]. split; [exact two_tasks_swapped |].
  split; [exact two_tasks_in_order |].
  exact (counters_sum_to_gauges_total sample_repr sample_float_of_str 10
           (Some "key-1") (Some "key-2") (gauge_file [lees_ferry; cisco])
           [lees_ferry; cisco] (fun _ => upstream_failover) [1; 0]%nat [0; 1]%nat
           0%float 1%float initial_state eq_refl two_tasks_swapped two_tasks_in_order).
Defined.

Lemma two_gauges_not_empty : [lees_ferry; cisco] <> [].
Proof. discriminate. Defined.

(** Two gauges with different labels: the snapshot has a sample for each. *)
Lemma streamflow_one_sample_per_labels_witness :
  read_gauges (gauge_file [lees_ferry; cisco]) = Ok [lees_ferry; cisco]
  /\ [lees_ferry; cisco] <> []
  /\ 0 < 10
  /\ [1; 0]%nat ≡ₚ seq 0 2
  /\ [0; 1]%nat ≡ₚ seq 0 2
  /\ exists snapshot st',
       metrics_with 10 (gauge_file [lees_ferry; cisco]) (fun _ => upstream_failover)
         [1; 0]%nat [0; 1]%nat 0%float 1%float initial_state
       = (Ok snapshot, st')
       /\ GAUGES_TOTAL snapshot = 2
       /\ dom (USGS_STREAMFLOW snapshot)
          = list_to_set (gauge_labels sample_repr <$> [lees_ferry; cisco])
       /\ (forall k v, USGS_STREAMFLOW snapshot !! k = Some v ->
             exists i g, [lees_ferry; cisco] !! i = Some g
                         /\ gauge_labels sample_repr g = k
                         /\ reading sample_repr sample_float_of_str
                              (Some "key-1") (Some "key-2") upstream_failover (id_of g)
                            = Ok v)
       /\ (NoDup (gauge_labels sample_repr <$> [lees_ferry; cisco]) ->
             size (USGS_STREAMFLOW snapshot) = 2%nat).
Proof.
  split; [reflexivity |]. split; [exact two_gauges_not_empty |].
  split; [reflexivity |].
  split; [exact two_tasks_swapped |]. split; [exact two_tasks_in_order |].
  exact (streamflow_one_sample_per_labels sample_repr sample_float_of_str 10
           (Some "key-1") (Some "key-2") (gauge_file [lees_ferry; cisco])
           [lees_ferry; cisco] (fun _ => upstream_failover) [1; 0]%nat [0; 1]%nat
           0%float 1%float initial_state eq_refl two_gauges_not_empty eq_refl
           two_tasks_swapped two_tasks_in_order).
Defined.

(** C5, the claim as worded, fails when a station is listed twice under
    different names: the list is accepted by [load_gauges], and the snapshot
    has two samples whose [gauge_id] label is 09380000. *)
Lemma duplicate_gauge_id_two_samples :
  read_gauges (gauge_file [lees_ferry; lees_ferry_again])
  = Ok [lees_ferry; lees_ferry_again]
  /\ exists snapshot,
       fst (metrics_with 10 (gauge_file [lees_ferry; lees_ferry_again])
              (fun _ => upstream_failover) [0; 1]%nat [0; 1]%nat 0%float 1%float
              initial_state) = Ok snapshot
       /\ length (entries_for "09380000" (USGS_STREAMFLOW snapshot)) = 2%nat
       /\ ~ one_entry_per_gauge_id sample_repr [lees_ferry; lees_ferry_again] snapshot.
Proof.
  split; [reflexivity |].
  eexists. split; [vm_compute; reflexivity |].
  split; [vm_compute; reflexivity |].
  intros Hone. specialize (Hone lees_ferry (list_elem_of_here _ _)).
  vm_compute in Hone. discriminate Hone.
Qed.



(** ** The further properties at sample inputs *)

(** Two entries whose ids are [null] and the empty string are accepted. *)
Lemma load_gauges_accepts_well_formed_witness :
  Forall has_id [[("id", YNull)]; [("id", YStr "")]]
  /\ load_gauges (gauge_file [[("id", YNull)]; [("id", YStr "")]]) initial_state
     = (Ok [[("id", YNull)]; [("id", YStr "")]], initial_state).
Proof.
  assert (Forall has_id [[("id", YNull)]; [("id", YStr "")]]) as Hids
    by (repeat constructor).
  exact (conj Hids (load_gauges_accepts_well_formed _ initial_state Hids)).
Defined.

(** A second feature, and a key beside ["features"], change nothing. *)
Lemma parse_reading_first_feature_only_witness :
  parse_reading sample_float_of_str
    (Some (JDict [("features",
                   JList [JDict [("properties", JDict [("value", JFloat 1.5)])];
                          JDict [("properties", JDict [("value", JFloat 9)])]])]))
  = parse_reading sample_float_of_str
      (Some (JDict [("numberReturned", JInt 1);
                    ("features",
                     JList [JDict [("properties", JDict [("value", JFloat 1.5)])]])])).
Proof.
  exact (parse_reading_first_feature_only sample_float_of_str
           [("features",
             JList [JDict [("properties", JDict [("value", JFloat 1.5)])];
                    JDict [("properties", JDict [("value", JFloat 9)])]])]
           [("numberReturned", JInt 1);
            ("features",
             JList [JDict [("properties", JDict [("value", JFloat 1.5)])]])]
           (JDict [("properties", JDict [("value", JFloat 1.5)])])
           [JDict [("properties", JDict [("value", JFloat 9)])]] []
           eq_refl eq_refl).
Defined.

(** A feature whose value is [null]. *)
Lemma parse_reading_without_value_witness :
  parse_reading sample_float_of_str
    (Some (JDict [("features",
                   JList [JDict [("properties", JDict [("value", JNull)])]])]))
  = Raise TypeError.
Proof.
  exact (parse_reading_without_value sample_float_of_str
           [("features", JList [JDict [("properties", JDict [("value", JNull)])]])]
           [("properties", JDict [("value", JNull)])] [("value", JNull)] []
           eq_refl eq_refl (or_intror eq_refl)).
Defined.

(** A body without a ["features"] key. *)
Lemma parse_reading_no_features_witness :
  parse_reading sample_float_of_str (Some (JDict [("type", JStr "FeatureCollection")]))
  = Ok nan.
Proof.
  exact (parse_reading_no_features sample_float_of_str
           [("type", JStr "FeatureCollection")] eq_refl).
Defined.

(** The value ["42.5"] as a string, with a [float] that reads it. *)
Lemma parse_reading_string_value_witness :
  parse_reading (fun s => if String.eqb s "42.5" then Some 42.5%float else None)
    (Some (one_feature (JStr "42.5")))
  = Ok 42.5%float.
Proof.
  exact (parse_reading_string_value
           (fun s => if String.eqb s "42.5" then Some 42.5%float else None)
           [("type", JStr "FeatureCollection");
            ("features",
             JList [JDict [("type", JStr "Feature");
                           ("properties",
                            JDict [("value", JStr "42.5");
                                   ("time", JStr "2024-05-01T12:00:00Z")])]])]
           [("type", JStr "Feature");
              ("properties", JDict [("value", JStr "42.5");
                                    ("time", JStr "2024-05-01T12:00:00Z")])]
           [("value", JStr "42.5"); ("time", JStr "2024-05-01T12:00:00Z")] []
           "42.5" eq_refl eq_refl eq_refl).
Defined.

(** The primary is answered with an empty feature list; the backup would
    not be reachable. *)
Lemma primary_reading_ends_the_call_witness :
  attempt sample_repr sample_float_of_str
    (fun _ _ => ok_response (rate_limit_headers "450" "500") body_no_features)
    (YStr "09380000") "primary" (Some "key-1") initial_state
  = (Ok nan, observed "primary" 450 500 initial_state)
  /\ fetch_with_sample_keys
       (fun key_label _ =>
          if String.eqb key_label "primary"
          then ok_response (rate_limit_headers "450" "500") body_no_features
          else GetRaises ConnectionError)
       (YStr "09380000") initial_state
     = (Ok nan, observed "primary" 450 500 initial_state).
Proof.
  assert (attempt sample_repr sample_float_of_str
            (fun _ _ => ok_response (rate_limit_headers "450" "500") body_no_features)
            (YStr "09380000") "primary" (Some "key-1") initial_state
          = (Ok nan, observed "primary" 450 500 initial_state)) as Hread
    by (vm_compute; reflexivity).
  exact (conj Hread
           (primary_reading_ends_the_call sample_repr sample_float_of_str
              (Some "key-1") (Some "key-2") _
              (fun key_label _ =>
                 if String.eqb key_label "primary"
                 then ok_response (rate_limit_headers "450" "500") body_no_features
                 else GetRaises ConnectionError)
              (YStr "09380000") nan initial_state _ Hread (fun _ => eq_refl))).
Defined.

Lemma exhausted_quota_is_silent_witness :
  fetch_with_sample_keys upstream_exhausted (YStr "09380000") initial_state
  = (Ok nan, initial_state).
Proof.
  exact (exhausted_quota_is_silent sample_repr sample_float_of_str
           (Some "key-1") (Some "key-2") upstream_exhausted (YStr "09380000")
           (mkResponse 429 [("Retry-After", "3600")] None)
           (mkResponse 429 [("Retry-After", "3600")] None)
           initial_state eq_refl eq_refl eq_refl eq_refl).
Defined.

(** A response with both headers and a body that is not an object: the
    observation is recorded, the attempt raises. *)
Lemma observation_recorded_before_body_witness :
  attempt sample_repr sample_float_of_str
    (fun _ _ => ok_response (rate_limit_headers "450" "500") (JStr "maintenance"))
    (YStr "09380000") "primary" (Some "key-1") initial_state
  = (Raise AttributeError, observed "primary" 450 500 initial_state).
Proof.
  exact (observation_recorded_before_body sample_repr sample_float_of_str
           (fun _ _ => ok_response (rate_limit_headers "450" "500") (JStr "maintenance"))
           (YStr "09380000") "primary" (Some "key-1")
           (mkResponse 200 (rate_limit_headers "450" "500") (Some (JStr "maintenance")))
           "450" "500" 450 500 initial_state
           eq_refl eq_refl eq_refl eq_refl eq_refl eq_refl eq_refl eq_refl eq_refl).
Defined.

(** The header [n/a] on a registry that has no sample yet: the sample is
    0.0. *)
Lemma unparseable_remaining_leaves_a_sample_witness :
  exists e st',
    update_rate_limits "primary"
      (mkResponse 200 (rate_limit_headers "n/a" "500") (Some body_42_5)) initial_state
    = (Raise e, st')
    /\ USGS_API_RATELIMIT_REMAINING st' !! "primary" = Some zero
    /\ USGS_API_REQUESTS_PER_HOUR st' = ∅.
Proof.
  exact (unparseable_remaining_leaves_a_sample "primary"
           (mkResponse 200 (rate_limit_headers "n/a" "500") (Some body_42_5))
           "n/a" initial_state eq_refl eq_refl).
Defined.

Lemma two_gauges_read : read_gauges (gauge_file [lees_ferry; cisco]) = Ok [lees_ferry; cisco].
Proof. reflexivity. Defined.

Lemma two_gauges_pool : 0 < Z.min 10 (Z.of_nat (length [lees_ferry; cisco])).
Proof. reflexivity. Defined.

Lemma two_gauges_labels_differ : NoDup (gauge_labels sample_repr <$> [lees_ferry; cisco]).
Proof.
  apply NoDup_cons. split.
  - intros Hin. apply list_elem_of_singleton in Hin. discriminate Hin.
  - apply NoDup_singleton.
Defined.

(** Two gauges whose credentials are both over quota: two successes. *)
Lemma returned_snapshot_counts_witness :
  exists snapshot,
    metrics_with 10 (gauge_file [lees_ferry; cisco]) (fun _ => upstream_exhausted)
      [1; 0]%nat [0; 1]%nat 3%float 5%float initial_state
    = (Ok snapshot, snapshot)
    /\ SCRAPE_SUCCESS snapshot = 2
    /\ SCRAPE_FAILURE snapshot = 0
    /\ SCRAPE_DURATION snapshot = PrimFloat.sub 5 3.
Proof.
  exact (returned_snapshot_counts sample_repr sample_float_of_str 10
           (Some "key-1") (Some "key-2") (gauge_file [lees_ferry; cisco])
           [lees_ferry; cisco] (fun _ => upstream_exhausted) [1; 0]%nat [0; 1]%nat
           3%float 5%float initial_state two_gauges_read two_gauges_pool
           two_tasks_swapped two_tasks_in_order).
Defined.

(** Two gauges against the upstream that answers by the station. *)
Lemma each_gauge_gets_its_own_reading_witness :
  exists snapshot,
    fst (metrics_with 10 (gauge_file [lees_ferry; cisco])
           (fun _ _ => upstream_by_station) [1; 0]%nat [0; 1]%nat
           3%float 5%float initial_state) = Ok snapshot
    /\ forall i g, [lees_ferry; cisco] !! i = Some g ->
         exists v, reading sample_repr sample_float_of_str (Some "key-1") (Some "key-2")
                     (fun _ => upstream_by_station) (id_of g) = Ok v
                   /\ USGS_STREAMFLOW snapshot !! gauge_labels sample_repr g = Some v.
Proof.
  exact (each_gauge_gets_its_own_reading sample_repr sample_float_of_str 10
           (Some "key-1") (Some "key-2") (gauge_file [lees_ferry; cisco])
           [lees_ferry; cisco] (fun _ _ => upstream_by_station) [1; 0]%nat [0; 1]%nat
           3%float 5%float initial_state two_gauges_read two_gauges_pool
           two_tasks_swapped two_tasks_in_order two_gauges_labels_differ).
Defined.

(** Two gauges and [MAX_WORKERS] set to 0. *)
Lemma scrape_without_worker_witness :
  exists st',
    metrics_with 0 (gauge_file [lees_ferry; cisco]) (fun _ => upstream_failover)
      [0; 1]%nat [0; 1]%nat 3%float 5%float initial_state
    = (Raise ValueError, st')
    /\ GAUGES_TOTAL st' = 2
    /\ USGS_STREAMFLOW st' = ∅
    /\ SCRAPE_SUCCESS st' = 0
    /\ SCRAPE_FAILURE st' = 0
    /\ SCRAPE_DURATION st' = zero
    /\ rate_limit_fields st' = rate_limit_fields initial_state.
Proof.
  exact (scrape_without_worker sample_repr sample_float_of_str 0
           (Some "key-1") (Some "key-2") (gauge_file [lees_ferry; cisco])
           [lees_ferry; cisco] (fun _ => upstream_failover) [0; 1]%nat [0; 1]%nat
           3%float 5%float initial_state eq_refl
           (Z.le_refl 0)).
Defined.

(** Two gauges, every call ending in a connection error. *)
Lemma scrape_with_upstream_down_witness :
  exists snapshot,
    fst (metrics_with 10 (gauge_file [lees_ferry; cisco])
           (fun _ _ _ => GetRaises ConnectionError) [1; 0]%nat [0; 1]%nat
           3%float 5%float initial_state) = Ok snapshot
    /\ rate_limit_fields snapshot = rate_limit_fields initial_state
    /\ forall g, g ∈ [lees_ferry; cisco] ->
         USGS_STREAMFLOW snapshot !! gauge_labels sample_repr g = Some nan.
Proof.
  exact (scrape_with_upstream_down sample_repr sample_float_of_str 10
           (Some "key-1") (Some "key-2") (gauge_file [lees_ferry; cisco])
           [lees_ferry; cisco] (fun _ _ _ => GetRaises ConnectionError)
           [1; 0]%nat [0; 1]%nat 3%float 5%float initial_state
           two_gauges_read two_gauges_pool two_tasks_swapped two_tasks_in_order
           (fun _ _ _ => I)).
Defined.

(** A gauge file that lists a bare station number. *)
Lemma malformed_file_fails_the_scrape_witness :
  malformed (YList [YStr "09380000"])
  /\ exists st',
       metrics_with 10 (Ok (YList [YStr "09380000"])) (fun _ => upstream_failover)
         [0%nat] [0%nat] 3%float 5%float initial_state
       = (Raise ValueError, st')
       /\ stdout st' = stdout initial_state ++ [ErrorLoadingGauges ValueError]
       /\ GAUGES_TOTAL st' = 0.
Proof.
  assert (malformed (YList [YStr "09380000"])) as Hbad
    by (exists (YStr "09380000"); split; [apply list_elem_of_here | reflexivity]).
  exact (conj Hbad
           (malformed_file_fails_the_scrape sample_repr sample_float_of_str 10
              (Some "key-1") (Some "key-2") (YList [YStr "09380000"])
              (fun _ => upstream_failover) [0%nat] [0%nat] 3%float 5%float
              initial_state Hbad)).
Defined.
